(** * Clustered users on the map

    A shallow embedding of the module that defines [addClusteredUsersToMap],
    [reRenderUsersOnMap] and [filterData].  The module keeps a map widget's
    clustered rendering of users in step with a list of user ids.  It talks
    to the rendering engine (maplibre-gl) only through method calls on a
    [map] object; the engine itself is an external library.  The embedding
    therefore has two layers:

    - the functions of the module, written in a small state-and-exception
      monad over a [World] (the module-level [sources] object, the engine's
      registries, and the log of engine calls issued so far);
    - a reference model of the engine's registries, which is strict: a call
      that violates the engine's preconditions raises. *)

From stdpp Require Import base strings gmap list.
From Stdlib Require Import ZArith.

Local Open Scope list_scope.

(** ** JavaScript values read by the module *)

(** Values that a GeoJSON feature property or a callback argument can hold.
    Numbers are the integers plus NaN; objects and arrays are opaque, all
    that is observed of them is that they are truthy. *)
Inductive JsValue : Type :=
  | JsUndefined
  | JsNull
  | JsBool (b : bool)
  | JsNumber (n : Z)
  | JsNaN
  | JsString (s : string)
  | JsObject.

Global Instance JsValue_eq_dec : EqDecision JsValue.
Proof. solve_decision. Defined.

(** ToBoolean: what [if (v)] and [!v] test. *)
Definition truthy (v : JsValue) : bool :=
  match v with
  | JsUndefined | JsNull | JsNaN => false
  | JsBool b => b
  | JsNumber n => negb (Z.eqb n 0)
  | JsString s => negb (String.eqb s "")
  | JsObject => true
  end.

(** A longitude/latitude pair; the module only passes it through. *)
Definition Coordinates : Type := Z * Z.

Record Geometry : Type := { coordinates : Coordinates }.

(** [maplibregl.MapboxGeoJSONFeature]: GeoJSON allows [properties] to be
    null. *)
Record Feature : Type := {
  properties : option (gmap string JsValue);
  geometry : Geometry;
}.

(** [feature.properties?.[k]] *)
Definition get_prop (f : Feature) (k : string) : JsValue :=
  match properties f with
  | None => JsUndefined
  | Some ps => default JsUndefined (ps !! k)
  end.

(** The click event; [ev.target] is the one map of the [World]. *)
Record MapMouseEvent : Type := { features : option (list Feature) }.

(** ** Style data: filter expressions, the source, the layers *)

(** The fragment of the style expression language the module writes. *)
Inductive Expr : Type :=
  | EHas (k : string)
  | ENot (e : Expr)
  | EGet (k : string)
  | ELiteral (ids : list Z)
  | EIn (needle haystack : Expr).

Global Instance Expr_eq_dec : EqDecision Expr.
Proof. solve_decision. Defined.

(** What a filter accepts, on the properties of a feature: ["has"] tests
    presence, ["!"] negates, and ["in", ["get", k], ["literal", ids]] is
    `ids.contains(feature[k])` as the comment in the source puts it. *)
Fixpoint feature_passes (e : Expr) (ps : gmap string JsValue) : bool :=
  match e with
  | EHas k => bool_decide (is_Some (ps !! k))
  | ENot e' => negb (feature_passes e' ps)
  | EIn (EGet k) (ELiteral ids) =>
      match ps !! k with
      | Some (JsNumber n) => bool_decide (n ∈ ids)
      | _ => false
      end
  | _ => false
  end.

(** [AnySourceData] as the module fills it in; [filter] is the property the
    module sets and deletes behind the type checker's back. *)
Record SourceConfig : Type := {
  cluster : bool;
  clusterMaxZoom : Z;
  clusterRadius : Z;
  data : string;
  promoteId : string;
  source_type : string;
  source_filter : option Expr;
}.

Global Instance SourceConfig_eq_dec : EqDecision SourceConfig.
Proof. solve_decision. Defined.

(** [sources["clustered-users"]] as the module initialises it; [URL] is the
    value of NEXT_PUBLIC_API_BASE_URL. *)
Definition sources_initial (URL : string) : SourceConfig := {|
  cluster := true;
  clusterMaxZoom := 14;
  clusterRadius := 50;
  data := URL +:+ "/geojson/users";
  promoteId := "id";
  source_type := "geojson";
  source_filter := None;
|}.

(** [sources["clustered-users"].filter = f] and
    [delete sources["clustered-users"].filter] *)
Definition with_filter (cfg : SourceConfig) (f : option Expr) : SourceConfig := {|
  cluster := cluster cfg;
  clusterMaxZoom := clusterMaxZoom cfg;
  clusterRadius := clusterRadius cfg;
  data := data cfg;
  promoteId := promoteId cfg;
  source_type := source_type cfg;
  source_filter := f;
|}.

(** [AnyLayer]: identity, kind, source and filter.  The [layout] and [paint]
    entries are colours and sizes taken from the theme; no operation of the
    module reads them. *)
Record LayerSpec : Type := {
  layer_id : string;
  layer_type : string;
  layer_source : string;
  layer_filter : Expr;
}.

Global Instance LayerSpec_eq_dec : EqDecision LayerSpec.
Proof. solve_decision. Defined.

Definition clusterCountLayer : LayerSpec := {|
  layer_id := "clusters-count";
  layer_type := "symbol";
  layer_source := "clustered-users";
  layer_filter := EHas "point_count";
|}.

Definition clusterLayer : LayerSpec := {|
  layer_id := "clusters";
  layer_type := "circle";
  layer_source := "clustered-users";
  layer_filter := EHas "point_count";
|}.

Definition unclusteredPointLayer : LayerSpec := {|
  layer_id := "unclustered-points";
  layer_type := "symbol";
  layer_source := "clustered-users";
  layer_filter := ENot (EHas "point_count");
|}.

(** ** Handlers, callbacks, engine calls *)

(** Functions registered as listeners are compared by identity: the
    module's own [zoomCluster], or a callback of the caller. *)
Inductive Handler : Type :=
  | HZoomCluster
  | HCallback (fn : nat).

Global Instance Handler_eq_dec : EqDecision Handler.
Proof. solve_decision. Defined.

(** A delegated listener: (event kind, layer id, handler). *)
Definition Binding : Type := string * string * Handler.

(** Calls issued on the map (pure queries are not logged). *)
Inductive Call : Type :=
  | CAddSource (id : string) (cfg : SourceConfig)
  | CRemoveSource (id : string)
  | CAddLayer (l : LayerSpec)
  | CRemoveLayer (id : string)
  | COn (type layer : string) (h : Handler)
  | COff (type layer : string) (h : Handler)
  | CLoadImage (src : string)
  | CAddImage (id : string) (sdf : bool)
  | CGetClusterExpansionZoom (source : string) (cluster_id : JsValue)
  | CFlyTo (center : Coordinates) (zoom : JsValue).

Global Instance Call_eq_dec : EqDecision Call.
Proof. solve_decision. Defined.

Inductive Error : Type :=
  | JsError (msg : string)      (* an Error object made outside the module *)
  | EngineError (c : Call)      (* the engine rejected call [c] *)
  | TypeError (msg : string).   (* member access on undefined *)

Global Instance Error_eq_dec : EqDecision Error.
Proof. solve_decision. Defined.

(** ** The world: module state, engine registries, call log *)

(** Registries of the map object.  [map_loading] holds the image loads in
    flight (their completion callback is always the closure made by
    [addPinImages]); [map_queries] holds the expansion-zoom queries in
    flight, each with the cluster its closure captured. *)
Record Map : Type := {
  map_sources : gmap string SourceConfig;
  map_layers : list LayerSpec;
  map_listeners : list Binding;
  map_images : gmap string bool;
  map_loading : list string;
  map_queries : list Feature;
}.

(** [sources] is the module-level object [sources["clustered-users"]],
    shared by every call; [userPin_src] is the URL of the imported image;
    [uncaught] collects what callbacks raised; [calls] is the log of engine
    calls, oldest first. *)
Record World : Type := {
  sources : SourceConfig;
  userPin_src : string;
  the_map : Map;
  uncaught : list Error;
  calls : list Call;
}.

Definition set_sources (cfg : SourceConfig) (w : World) : World :=
  {| sources := cfg; userPin_src := userPin_src w; the_map := the_map w;
     uncaught := uncaught w; calls := calls w |}.

Definition set_map (m : Map) (w : World) : World :=
  {| sources := sources w; userPin_src := userPin_src w; the_map := m;
     uncaught := uncaught w; calls := calls w |}.

Definition set_uncaught (es : list Error) (w : World) : World :=
  {| sources := sources w; userPin_src := userPin_src w; the_map := the_map w;
     uncaught := es; calls := calls w |}.

Definition set_calls (cs : list Call) (w : World) : World :=
  {| sources := sources w; userPin_src := userPin_src w; the_map := the_map w;
     uncaught := uncaught w; calls := cs |}.

Definition set_map_sources (x : gmap string SourceConfig) (m : Map) : Map :=
  {| map_sources := x; map_layers := map_layers m;
     map_listeners := map_listeners m; map_images := map_images m;
     map_loading := map_loading m; map_queries := map_queries m |}.

Definition set_map_layers (x : list LayerSpec) (m : Map) : Map :=
  {| map_sources := map_sources m; map_layers := x;
     map_listeners := map_listeners m; map_images := map_images m;
     map_loading := map_loading m; map_queries := map_queries m |}.

Definition set_map_listeners (x : list Binding) (m : Map) : Map :=
  {| map_sources := map_sources m; map_layers := map_layers m;
     map_listeners := x; map_images := map_images m;
     map_loading := map_loading m; map_queries := map_queries m |}.

Definition set_map_images (x : gmap string bool) (m : Map) : Map :=
  {| map_sources := map_sources m; map_layers := map_layers m;
     map_listeners := map_listeners m; map_images := x;
     map_loading := map_loading m; map_queries := map_queries m |}.

Definition set_map_loading (x : list string) (m : Map) : Map :=
  {| map_sources := map_sources m; map_layers := map_layers m;
     map_listeners := map_listeners m; map_images := map_images m;
     map_loading := x; map_queries := map_queries m |}.

Definition set_map_queries (x : list Feature) (m : Map) : Map :=
  {| map_sources := map_sources m; map_layers := map_layers m;
     map_listeners := map_listeners m; map_images := map_images m;
     map_loading := map_loading m; map_queries := x |}.

(** ** The monad: state with exceptions

    A JavaScript exception does not roll the state back, so [Throw] carries
    the world reached when it was raised. *)
Inductive Outcome (A : Type) : Type :=
  | Return (a : A) (w : World)
  | Throw (e : Error) (w : World).
Arguments Return {A} a w.
Arguments Throw {A} e w.

Definition M (A : Type) : Type := World → Outcome A.

Global Instance M_ret : MRet M := λ A a w, Return a w.

Global Instance M_bind : MBind M := λ A B f m w,
  match m w with
  | Return a w' => f a w'
  | Throw e w' => Throw e w'
  end.

Definition throw {A : Type} (e : Error) : M A := λ w, Throw e w.
Definition gets {A : Type} (f : World → A) : M A := λ w, Return (f w) w.
Definition modify (f : World → World) : M unit := λ w, Return tt (f w).
Definition modify_map (f : Map → Map) : M unit :=
  modify (λ w, set_map (f (the_map w)) w).
Definition log (c : Call) : M unit :=
  modify (λ w, set_calls (calls w ++ [c]) w).

(** The world an outcome ends in, and whether it ended normally. *)
Definition final {A : Type} (o : Outcome A) : World :=
  match o with Return _ w | Throw _ w => w end.

Definition returns {A : Type} (o : Outcome A) : bool :=
  match o with Return _ _ => true | Throw _ _ => false end.

(** ** Reference model of the engine's methods *)

Definition layer_ids (m : Map) : list string := layer_id <$> map_layers m.

Definition has_source (id : string) (m : Map) : bool :=
  bool_decide (is_Some (map_sources m !! id)).

Definition has_layer (id : string) (m : Map) : bool :=
  bool_decide (id ∈ layer_ids m).

Definition source_in_use (id : string) (m : Map) : bool :=
  bool_decide (Exists (λ l, layer_source l = id) (map_layers m)).

(** [map.addSource(id, cfg)]: the id must be free. *)
Definition map_addSource (id : string) (cfg : SourceConfig) : M unit :=
  log (CAddSource id cfg);;
  m ← gets the_map;
  if has_source id m then throw (EngineError (CAddSource id cfg))
  else modify_map (set_map_sources (<[id := cfg]> (map_sources m))).

(** [map.removeSource(id)]: the source must exist and no layer may still
    draw from it. *)
Definition map_removeSource (id : string) : M unit :=
  log (CRemoveSource id);;
  m ← gets the_map;
  if has_source id m && negb (source_in_use id m)
  then modify_map (set_map_sources (delete id (map_sources m)))
  else throw (EngineError (CRemoveSource id)).

(** [map.addLayer(l)]: the layer id must be free and the source present;
    the new layer goes on top. *)
Definition map_addLayer (l : LayerSpec) : M unit :=
  log (CAddLayer l);;
  m ← gets the_map;
  if negb (has_layer (layer_id l) m) && has_source (layer_source l) m
  then modify_map (set_map_layers (map_layers m ++ [l]))
  else throw (EngineError (CAddLayer l)).

(** [map.removeLayer(id)]: the layer must exist. *)
Definition map_removeLayer (id : string) : M unit :=
  log (CRemoveLayer id);;
  m ← gets the_map;
  if has_layer id m
  then modify_map (set_map_layers (filter (λ l, layer_id l ≠ id) (map_layers m)))
  else throw (EngineError (CRemoveLayer id)).

(** [map.on(type, layer, h)]: one more delegated listener, also when the
    same triple is registered already. *)
Definition map_on (type layer : string) (h : Handler) : M unit :=
  log (COn type layer h);;
  modify_map (λ m, set_map_listeners (map_listeners m ++ [(type, layer, h)]) m).

(** Drop the first listener equal to [b], if there is one. *)
Fixpoint remove_first (b : Binding) (bs : list Binding) : list Binding :=
  match bs with
  | [] => []
  | b' :: bs' => if decide (b' = b) then bs' else b' :: remove_first b bs'
  end.

(** [map.off(type, layer, h)]: removes the first matching delegated
    listener; silent when there is none. *)
Definition map_off (type layer : string) (h : Handler) : M unit :=
  log (COff type layer h);;
  modify_map (λ m, set_map_listeners (remove_first (type, layer, h) (map_listeners m)) m).

(** [map.hasImage(id)] *)
Definition map_hasImage (id : string) : M bool :=
  gets (λ w, bool_decide (is_Some (map_images (the_map w) !! id))).

(** [map.loadImage(src, callback)]: starts a load; the callback runs when
    [image_loaded] delivers the result. *)
Definition map_loadImage (src : string) : M unit :=
  log (CLoadImage src);;
  modify_map (λ m, set_map_loading (map_loading m ++ [src]) m).

(** [map.addImage(id, image, {sdf})]: the id must be free. *)
Definition map_addImage (id : string) (sdf : bool) : M unit :=
  log (CAddImage id sdf);;
  m ← gets the_map;
  if bool_decide (is_Some (map_images m !! id))
  then throw (EngineError (CAddImage id sdf))
  else modify_map (set_map_images (<[id := sdf]> (map_images m))).

(** [map.getSource(id)] *)
Definition map_getSource (id : string) : M (option SourceConfig) :=
  gets (λ w, map_sources (the_map w) !! id).

(** [source.getClusterExpansionZoom(clusterId, callback)] on the result of
    [getSource]; on undefined the member access raises. *)
Definition getClusterExpansionZoom (source : option SourceConfig)
    (id : string) (cluster_id : JsValue) (cluster : Feature) : M unit :=
  match source with
  | None => throw (TypeError "getClusterExpansionZoom of undefined")
  | Some _ =>
      log (CGetClusterExpansionZoom id cluster_id);;
      modify_map (λ m, set_map_queries (map_queries m ++ [cluster]) m)
  end.

(** [map.flyTo({center, zoom})] *)
Definition map_flyTo (center : Coordinates) (zoom : JsValue) : M unit :=
  log (CFlyTo center zoom).

(** ** The module's functions *)

(** [addPinImages]: the callback given to [loadImage], lines 105-112. *)
Definition addPinImages_loaded (error : option Error) : M unit :=
  match error with
  | Some e => throw e
  | None =>
      (* this is twice because of loading race condition *)
      registered ← map_hasImage "user-pin";
      if registered : bool then mret tt
      else map_addImage "user-pin" true
  end.

(** [addPinImages], lines 102-113. *)
Definition addPinImages : M unit :=
  registered ← map_hasImage "user-pin";
  if registered : bool then mret tt
  else
    src ← gets userPin_src;
    map_loadImage src.

(** [ev.features?.[0]] *)
Definition first_feature (ev : MapMouseEvent) : option Feature :=
  features ev ≫= head.

(** [zoomCluster]: the callback given to [getClusterExpansionZoom], lines
    126-131.  The error argument is not looked at. *)
Definition zoomCluster_answered (cluster : Feature)
    (_error : option Error) (zoom : JsValue) : M unit :=
  map_flyTo (coordinates (geometry cluster)) zoom.

(** [zoomCluster], lines 115-133. *)
Definition zoomCluster (ev : MapMouseEvent) : M unit :=
  match first_feature ev with
  | None => mret tt
  | Some cluster =>
      if negb (truthy (get_prop cluster "cluster_id")) then mret tt
      else
        source ← map_getSource "clustered-users";
        getClusterExpansionZoom source "clustered-users"
          (get_prop cluster "cluster_id") cluster
  end.

(** The search results [filterData] reads: [User.AsObject] (of which only
    [userId] is used), a result with its optional user, a page, and
    react-query's [InfiniteData]. *)
Record User : Type := { userId : Z }.
Record Result : Type := { user : option User }.
Record UserSearchRes : Type := { resultsList : list Result }.
Record InfiniteData : Type := { pages : list UserSearchRes }.

(** [xs.filter((user): user is User.AsObject => !!user)]: an object is
    truthy, undefined is not. *)
Definition filter_defined {A : Type} (xs : list (option A)) : list A :=
  omap (λ x, x) xs.

(** [filterData], lines 138-146. *)
Definition filterData (data : InfiniteData) : list Z :=
  userId <$> filter_defined (user <$> (pages data ≫= resultsList)).

(** Lines 158-162 of [addClusteredUsersToMap]: registering the handlers. *)
Definition addClusteredUsersToMap_handlers
    (userClickedCallback : option Handler) : M unit :=
  match userClickedCallback with
  | Some cb => map_on "click" (layer_id unclusteredPointLayer) cb
  | None => mret tt
  end;;
  map_on "click" (layer_id clusterLayer) HZoomCluster.

(** [addClusteredUsersToMap], lines 148-163. *)
Definition addClusteredUsersToMap
    (userClickedCallback : option Handler) : M unit :=
  cfg ← gets sources;
  map_addSource "clustered-users" cfg;;
  addPinImages;;
  map_addLayer clusterLayer;;
  map_addLayer clusterCountLayer;;
  map_addLayer unclusteredPointLayer;;
  addClusteredUsersToMap_handlers userClickedCallback.

(** Lines 179-182 of [reRenderUsersOnMap]: removing the handlers. *)
Definition reRenderUsersOnMap_handlers
    (userClickedCallback : option Handler) : M unit :=
  match userClickedCallback with
  | Some cb =>
      map_off "click" (layer_id unclusteredPointLayer) cb;;
      map_off "click" (layer_id clusterLayer) HZoomCluster
  | None => mret tt
  end.

(** Lines 184-187 of [reRenderUsersOnMap]: removing layers and source. *)
Definition reRenderUsersOnMap_remove : M unit :=
  map_removeLayer (layer_id clusterLayer);;
  map_removeLayer (layer_id clusterCountLayer);;
  map_removeLayer (layer_id unclusteredPointLayer);;
  map_removeSource "clustered-users".

(** Lines 189-197 of [reRenderUsersOnMap]: the filter of the shared
    [sources] object.  An array is truthy even when empty, so only [null]
    takes the [delete] branch. *)
Definition reRenderUsersOnMap_filter (ids : option (list Z)) : M unit :=
  match ids with
  | Some ids' =>
      modify (λ w, set_sources
        (with_filter (sources w) (Some (EIn (EGet "id") (ELiteral ids')))) w)
  | None =>
      modify (λ w, set_sources (with_filter (sources w) None) w)
  end.

(** [reRenderUsersOnMap], lines 172-200. *)
Definition reRenderUsersOnMap (ids : option (list Z))
    (userClickedCallback : option Handler) : M unit :=
  reRenderUsersOnMap_handlers userClickedCallback;;
  reRenderUsersOnMap_remove;;
  reRenderUsersOnMap_filter ids;;
  addClusteredUsersToMap userClickedCallback.

(** ** The event loop delivering asynchronous results *)

(** A callback runs as a task of its own: what it raises is reported as an
    uncaught error and the loop goes on. *)
Definition run_task (m : M unit) (w : World) : World :=
  match m w with
  | Return _ w' => w'
  | Throw e w' => set_uncaught (uncaught w' ++ [e]) w'
  end.

(** The oldest image load in flight completes, with an error or an image. *)
Definition image_loaded (error : option Error) (w : World) : World :=
  match map_loading (the_map w) with
  | [] => w
  | _ :: rest =>
      run_task (addPinImages_loaded error)
        (set_map (set_map_loading rest (the_map w)) w)
  end.

(** The oldest expansion-zoom query in flight is answered. *)
Definition expansion_zoom_answered (error : option Error) (zoom : JsValue)
    (w : World) : World :=
  match map_queries (the_map w) with
  | [] => w
  | cluster :: rest =>
      run_task (zoomCluster_answered cluster error zoom)
        (set_map (set_map_queries rest (the_map w)) w)
  end.

(** [addPinImages] invoked [n] times in a row. *)
Fixpoint addPinImages_times (n : nat) : M unit :=
  match n with
  | O => mret tt
  | S n' => addPinImages;; addPinImages_times n'
  end.

(** The loads in flight complete one after the other with [outcomes]. *)
Definition images_loaded (outcomes : list (option Error)) (w : World) : World :=
  foldl (λ w' o, image_loaded o w') w outcomes.

(** Calls issued between world [w] and a later world [w']. *)
Definition calls_since (w w' : World) : list Call :=
  drop (length (calls w)) (calls w').

(** A fresh map: nothing installed, nothing in flight. *)
Definition empty_map : Map := {|
  map_sources := ∅; map_layers := []; map_listeners := [];
  map_images := ∅; map_loading := []; map_queries := [];
|}.

(** The world when the module has just been loaded. *)
Definition initial_world (URL pin : string) : World := {|
  sources := sources_initial URL; userPin_src := pin;
  the_map := empty_map; uncaught := []; calls := [];
|}.

(** ** Notions used by the statements *)

(** The Result Extractor as the specification words it: go through the
    pages in order and through each page's results in order, skip a result
    without a user, keep the user id of every other one. *)
Fixpoint extract_page (results : list Result) : list Z :=
  match results with
  | [] => []
  | r :: rest =>
      match user r with
      | Some u => userId u :: extract_page rest
      | None => extract_page rest
      end
  end.

Fixpoint extractIds (ps : list UserSearchRes) : list Z :=
  match ps with
  | [] => []
  | p :: rest => extract_page (resultsList p) ++ extractIds rest
  end.

(** A result for user [n], and a result without user. *)
Definition result_for (n : Z) : Result := {| user := Some {| userId := n |} |}.
Definition result_no_user : Result := {| user := None |}.

(** The feature carries a [cluster_id] property, whatever its value. *)
Definition has_cluster_id (f : Feature) : Prop :=
  ∃ ps, properties f = Some ps ∧ is_Some (ps !! "cluster_id").

(** The feature with its [cluster_id] property deleted. *)
Definition without_cluster_id (f : Feature) : Feature := {|
  properties := delete "cluster_id" <$> properties f;
  geometry := geometry f;
|}.

(** A click on the single feature [f]. *)
Definition click_on (f : Feature) : MapMouseEvent := {| features := Some [f] |}.

(** A point feature with the given properties. *)
Definition feature_at (c : Coordinates) (ps : list (string * JsValue)) : Feature := {|
  properties := Some (list_to_map ps);
  geometry := {| coordinates := c |};
|}.

Definition is_flyTo (c : Call) : bool :=
  match c with CFlyTo _ _ => true | _ => false end.

Definition is_addImage (c : Call) : bool :=
  match c with CAddImage _ _ => true | _ => false end.

(** The ids of the three layers the module owns. *)
Definition cluster_layer_ids : list string :=
  [layer_id clusterLayer; layer_id clusterCountLayer;
   layer_id unclusteredPointLayer].

(** The map is in the state [addClusteredUsersToMap] leaves it in: the
    source is there, the three layers are there, and no other layer draws
    from the source. *)
Definition installed (m : Map) : bool :=
  has_source "clustered-users" m
  && forallb (λ id, has_layer id m) cluster_layer_ids
  && forallb (λ l, bool_decide (layer_source l = "clustered-users" →
                                layer_id l ∈ cluster_layer_ids))
       (map_layers m).

(** Worlds for the examples: the module just loaded, and the map with the
    users added without a point-click callback. *)
Definition world_fresh : World := initial_world "https://api.example" "userPin.png".

Definition world_installed : World := final (addClusteredUsersToMap None world_fresh).

(** The layers left when layer [id] is removed. *)
Definition remove_layer (id : string) (ls : list LayerSpec) : list LayerSpec :=
  filter (λ l, layer_id l ≠ id) ls.

(** The listeners the module registers: the caller's callback on the
    points, if there is one, and [zoomCluster] on the clusters. *)
Definition point_binding (cb : option Handler) : list Binding :=
  match cb with
  | Some h => [("click", "unclustered-points", h)]
  | None => []
  end.

Definition cluster_binding : Binding := ("click", "clusters", HZoomCluster).

Definition on_call (b : Binding) : Call := COn b.1.1 b.1.2 b.2.

(** The world after lines 184-187 have run on an installed map. *)
Definition removed (w : World) : World :=
  set_map
    (set_map_sources (delete "clustered-users" (map_sources (the_map w)))
       (set_map_layers
          (remove_layer "unclustered-points"
             (remove_layer "clusters-count"
                (remove_layer "clusters" (map_layers (the_map w)))))
          (the_map w)))
    (set_calls
       (calls w ++ [CRemoveLayer "clusters"; CRemoveLayer "clusters-count";
                    CRemoveLayer "unclustered-points";
                    CRemoveSource "clustered-users"]) w).

(** The image load [addPinImages] starts, if any. *)
Definition pin_load (w : World) : list string :=
  if bool_decide (is_Some (map_images (the_map w) !! "user-pin"))
  then [] else [userPin_src w].

(** The world after [addClusteredUsersToMap] has run on a map without the
    source and the layers. *)
Definition added (cb : option Handler) (w : World) : World :=
  set_map {|
    map_sources := <["clustered-users" := sources w]> (map_sources (the_map w));
    map_layers := map_layers (the_map w)
      ++ [clusterLayer; clusterCountLayer; unclusteredPointLayer];
    map_listeners := map_listeners (the_map w)
      ++ point_binding cb ++ [cluster_binding];
    map_images := map_images (the_map w);
    map_loading := map_loading (the_map w) ++ pin_load w;
    map_queries := map_queries (the_map w);
  |}
  (set_calls
     (calls w ++ [CAddSource "clustered-users" (sources w)]
        ++ (CLoadImage <$> pin_load w)
        ++ [CAddLayer clusterLayer; CAddLayer clusterCountLayer;
            CAddLayer unclusteredPointLayer]
        ++ (on_call <$> point_binding cb ++ [cluster_binding])) w).

(** The filter [reRenderUsersOnMap] leaves on the shared source object. *)
Definition filter_for (ids : option (list Z)) : option Expr :=
  match ids with
  | Some ids' => Some (EIn (EGet "id") (ELiteral ids'))
  | None => None
  end.

(** What happens to the Icon Registrar over time: it is invoked, or the
    oldest load in flight completes. *)
Inductive IconEvent : Type :=
  | Invoked
  | Completed (error : option Error).

Definition icon_event (ev : IconEvent) (w : World) : World :=
  match ev with
  | Invoked => run_task addPinImages w
  | Completed error => image_loaded error w
  end.

Definition icon_events (evs : list IconEvent) (w : World) : World :=
  foldl (λ w' ev, icon_event ev w') w evs.

Definition pin_registered (w : World) : bool :=
  bool_decide (is_Some (map_images (the_map w) !! "user-pin")).

Definition count_addImage (cs : list Call) : nat :=
  length (filter (λ c, is_addImage c = true) cs).

(** The map carries nothing of the clustered users: no source of that
    name, none of the three layers, and no layer drawing from the source. *)
Definition uninstalled (m : Map) : bool :=
  negb (has_source "clustered-users" m)
  && forallb (λ id, negb (has_layer id m)) cluster_layer_ids
  && forallb (λ l, bool_decide (layer_source l ≠ "clustered-users"))
       (map_layers m).

(** The [off] calls of lines 179-182. *)
Definition off_calls (cb : option Handler) : list Call :=
  match cb with
  | Some h => [COff "click" "unclustered-points" h;
               COff "click" "clusters" HZoomCluster]
  | None => []
  end.

(** The layers that are not among the module's three. *)
Definition other_layers (ls : list LayerSpec) : list LayerSpec :=
  filter (λ l, layer_id l ∉ cluster_layer_ids) ls.

(** [reRenderUsersOnMap] called once for each element of [idss], in order,
    each time with the same callback. *)
Fixpoint reRenderUsersOnMap_each (idss : list (option (list Z)))
    (cb : option Handler) : M unit :=
  match idss with
  | [] => mret tt
  | ids :: rest =>
      reRenderUsersOnMap ids cb;; reRenderUsersOnMap_each rest cb
  end.

(** The results of all pages, in order. *)
Definition all_results (data : InfiniteData) : list Result :=
  pages data ≫= resultsList.

(** [n] is the id of the user of some result on some page. *)
Definition is_result_user (data : InfiniteData) (n : Z) : Prop :=
  ∃ page r u, page ∈ pages data ∧ r ∈ resultsList page ∧
              user r = Some u ∧ userId u = n.

(** Everything that can happen to the module: its two exported functions
    are called, a click reaches [zoomCluster], an image load completes, an
    expansion-zoom query is answered.  What a call raises goes to the
    caller; here it is recorded with the uncaught errors. *)
Inductive ModuleEvent : Type :=
  | CallAdd (cb : option Handler)
  | CallReRender (ids : option (list Z)) (cb : option Handler)
  | ClusterClicked (ev : MapMouseEvent)
  | ImageLoaded (error : option Error)
  | ZoomAnswered (error : option Error) (zoom : JsValue).

Definition module_event (e : ModuleEvent) (w : World) : World :=
  match e with
  | CallAdd cb => run_task (addClusteredUsersToMap cb) w
  | CallReRender ids cb => run_task (reRenderUsersOnMap ids cb) w
  | ClusterClicked ev => run_task (zoomCluster ev) w
  | ImageLoaded error => image_loaded error w
  | ZoomAnswered error zoom => expansion_zoom_answered error zoom w
  end.

Definition module_events (es : list ModuleEvent) (w : World) : World :=
  foldl (λ w' e, module_event e w') w es.

(** A filter the module writes: none, or a membership test of [id] in a
    literal list. *)
Definition is_id_filter (f : option Expr) : bool :=
  match f with
  | None => true
  | Some (EIn (EGet k) (ELiteral _)) => bool_decide (k = "id")
  | Some _ => false
  end.

(** The filter is the one of [base], or one the module writes. *)
Definition filter_from (base : SourceConfig) (f : option Expr) : bool :=
  bool_decide (f = source_filter base) || is_id_filter f.

(** The engine calls the module can issue when its shared source object
    started as [base] and the icon's URL is [pin]: they name only the
    source [clustered-users] (added as [base] with the filter it had or
    with a membership test on [id]), the three layers, click listeners on
    two of them, and the image [user-pin]. *)
Definition module_call (base : SourceConfig) (pin : string) (c : Call) : bool :=
  match c with
  | CAddSource id cfg =>
      bool_decide (id = "clustered-users"
                   ∧ with_filter cfg None = with_filter base None)
      && filter_from base (source_filter cfg)
  | CRemoveSource id => bool_decide (id = "clustered-users")
  | CAddLayer l =>
      bool_decide (l ∈ [clusterLayer; clusterCountLayer; unclusteredPointLayer])
  | CRemoveLayer id => bool_decide (id ∈ cluster_layer_ids)
  | COn type layer _ | COff type layer _ =>
      bool_decide (type = "click" ∧ layer ∈ ["unclustered-points"; "clusters"])
  | CLoadImage src => bool_decide (src = pin)
  | CAddImage id sdf => bool_decide (id = "user-pin" ∧ sdf = true)
  | CGetClusterExpansionZoom source _ => bool_decide (source = "clustered-users")
  | CFlyTo _ _ => true
  end.

(** World [w] is reachable from [w0] as far as the module's own state and
    its calls go: the shared source object differs from that of [w0] in its
    filter at most, and this filter is the one of [w0] or one the module
    writes; the icon's URL is the same; and the calls issued since [w0] are
    all calls of the module. *)
Definition within (w0 w : World) : Prop :=
  (with_filter (sources w) None = with_filter (sources w0) None ∧
   filter_from (sources w0) (source_filter (sources w)) = true) ∧
  userPin_src w = userPin_src w0 ∧
  ∃ cs, calls w = calls w0 ++ cs ∧
        Forall (λ c, module_call (sources w0) (userPin_src w0) c = true) cs.

(** ** The request button of the profile overview

    [DefaultActions] of [features/profile/view/Overview.tsx]: the handler
    of the request button and the [onClose] of the dialog.  The state is
    the component's [showCantRequestDialog] and the [isRequesting] flag
    behind the [setIsRequesting] it is given. *)

(** The account info, of which only [profileComplete] is read. *)
Record AccountInfo : Type := { profileComplete : bool }.

Record RequestState : Type := {
  showCantRequestDialog : bool;
  isRequesting : bool;
}.

(** [requestButton], lines 77-83; [accountInfo] is undefined until it has
    been fetched, and [!accountInfo?.profileComplete] is then true. *)
Definition requestButton (accountInfo : option AccountInfo)
    (st : RequestState) : RequestState :=
  if negb (default false (profileComplete <$> accountInfo))
  then {| showCantRequestDialog := true; isRequesting := isRequesting st |}
  else {| showCantRequestDialog := showCantRequestDialog st; isRequesting := true |}.

(** [onClose] of the dialog, line 89. *)
Definition closeCantRequestDialog (st : RequestState) : RequestState :=
  {| showCantRequestDialog := false; isRequesting := isRequesting st |}.

(** The button is clicked, with the account info of that render, or the
    dialog is closed. *)
Inductive RequestEvent : Type :=
  | RequestClicked (accountInfo : option AccountInfo)
  | DialogClosed.

Definition request_event (e : RequestEvent) (st : RequestState) : RequestState :=
  match e with
  | RequestClicked accountInfo => requestButton accountInfo st
  | DialogClosed => closeCantRequestDialog st
  end.

Definition request_events (es : list RequestEvent) (st : RequestState) : RequestState :=
  foldl (λ st' e, request_event e st') st es.

(** The map is in one of its two proper states as far as the clustered
    users go: nothing of them, or all of them. *)
Definition settled (m : Map) : bool := uninstalled m || installed m.

(** A computation keeps [within]: from a world within [w0] it ends, by
    return or by exception, in a world within [w0]. *)
Definition keeps_within {A : Type} (m : M A) : Prop :=
  ∀ w0 w, within w0 w → within w0 (final (m w)).

Definition is_query (c : Call) : bool :=
  match c with CGetClusterExpansionZoom _ _ => true | _ => false end.

Definition count_flyTo (cs : list Call) : nat :=
  length (filter (λ c, is_flyTo c = true) cs).

Definition count_query (cs : list Call) : nat :=
  length (filter (λ c, is_query c = true) cs).

(** Between [w0] and [w] the camera and the expansion-zoom queries were
    left alone: the same queries are in flight and no call since [w0] is a
    [flyTo] or a query. *)
Definition calm (w0 w : World) : Prop :=
  map_queries (the_map w) = map_queries (the_map w0) ∧
  ∃ cs, calls w = calls w0 ++ cs ∧
        Forall (λ c, is_flyTo c = false ∧ is_query c = false) cs.

Definition keeps_calm {A : Type} (m : M A) : Prop :=
  ∀ w0 w, calm w0 w → calm w0 (final (m w)).

(** * Properties *)

(** ** Result Extractor *)

Lemma filter_defined_cons {A : Type} (x : option A) (xs : list (option A)) :
  filter_defined (x :: xs) =
  match x with Some a => a :: filter_defined xs | None => filter_defined xs end.
Proof. by destruct x. Qed.

Lemma filter_defined_app {A : Type} (xs ys : list (option A)) :
  filter_defined (xs ++ ys) = filter_defined xs ++ filter_defined ys.
Proof. unfold filter_defined. apply omap_app. Qed.

Lemma extract_page_pipeline (results : list Result) :
  userId <$> filter_defined (user <$> results) = extract_page results.
Proof.
  induction results as [|r rest IH]; [done|].
  rewrite fmap_cons, filter_defined_cons. cbn [extract_page].
  destruct (user r) as [u|]; [rewrite fmap_cons|]; by rewrite IH.
Qed.

(** C6: [filterData] returns the user ids got by going through the pages
    in order and each page's results in order, leaving out exactly the
    results without a user, with order and duplicates kept; pages with
    results for users [7, no user, 3] and [3] give [7, 3, 3]. *)
Theorem filterData_extracts_ids :
  (∀ data : InfiniteData, filterData data = extractIds (pages data)) ∧
  filterData {| pages :=
    [ {| resultsList := [result_for 7; result_no_user; result_for 3] |};
      {| resultsList := [result_for 3] |} ] |} = [7; 3; 3]%Z.
Proof.
  split; [|reflexivity].
  intros [ps]. unfold filterData. cbn [pages].
  induction ps as [|p rest IH]; [done|].
  rewrite bind_cons, fmap_app, filter_defined_app, fmap_app.
  cbn [extractIds]. by rewrite extract_page_pipeline, IH.
Qed.

(** ** Cluster click *)

Lemma get_prop_no_cluster_id (f : Feature) :
  ¬ has_cluster_id f → get_prop f "cluster_id" = JsUndefined.
Proof.
  intros Hno. unfold get_prop.
  destruct (properties f) as [ps|] eqn:Hps; [|done].
  destruct (ps !! "cluster_id") as [v|] eqn:Hv; [|done].
  exfalso. apply Hno. exists ps. eauto.
Qed.

Lemma zoomCluster_falsy (ev : MapMouseEvent) (c : Feature) (w : World) :
  first_feature ev = Some c →
  truthy (get_prop c "cluster_id") = false →
  zoomCluster ev w = Return tt w.
Proof. intros Hc Hv. unfold zoomCluster. by rewrite Hc, Hv. Qed.

Lemma get_prop_without_cluster_id (f : Feature) :
  get_prop (without_cluster_id f) "cluster_id" = JsUndefined.
Proof.
  unfold get_prop, without_cluster_id. cbn [properties].
  destruct (properties f) as [ps|]; [|done].
  cbn. by rewrite lookup_delete_eq.
Qed.

(** C7: when the event has no feature, or its first feature has no
    [cluster_id] property, [zoomCluster] does nothing: the world is as it
    was, so no expansion-zoom query was issued and no camera movement. *)
Theorem zoomCluster_no_cluster_id (ev : MapMouseEvent) (w : World) :
  (∀ c, first_feature ev = Some c → ¬ has_cluster_id c) →
  zoomCluster ev w = Return tt w.
Proof.
  intros Hno. destruct (first_feature ev) as [c|] eqn:Hc.
  - apply (zoomCluster_falsy ev c w Hc).
    by rewrite (get_prop_no_cluster_id c (Hno c eq_refl)).
  - unfold zoomCluster. by rewrite Hc.
Qed.

Lemma zoomCluster_no_cluster_id_witness :
  zoomCluster (click_on (feature_at (4, 52)%Z [("id", JsNumber 17)])) world_installed
  = Return tt world_installed.
Proof.
  apply zoomCluster_no_cluster_id.
  intros c Hc. injection Hc as <-. intros (ps & Hps & Hv).
  injection Hps as <-. vm_compute in Hv. by destruct Hv.
Defined.

(** The same with no feature under the cursor, and with [features]
    undefined. *)
Lemma zoomCluster_no_feature (w : World) :
  zoomCluster {| features := Some [] |} w = Return tt w ∧
  zoomCluster {| features := None |} w = Return tt w.
Proof. done. Qed.

(** C10: a [cluster_id] whose value is falsy (the number 0, the empty
    string) is treated like a missing one: [zoomCluster] tests the value's
    truthiness, does nothing, and behaves as on the same click with the
    property deleted. *)
Theorem zoomCluster_falsy_cluster_id (c : Feature) (w : World) :
  truthy (get_prop c "cluster_id") = false →
  zoomCluster (click_on c) w = Return tt w ∧
  zoomCluster (click_on c) w = zoomCluster (click_on (without_cluster_id c)) w.
Proof.
  intros Hv. assert (zoomCluster (click_on c) w = Return tt w) as ->.
  { by apply (zoomCluster_falsy _ c). }
  split; [done|]. symmetry. apply (zoomCluster_falsy _ (without_cluster_id c)); [done|].
  by rewrite get_prop_without_cluster_id.
Qed.

Lemma zoomCluster_falsy_cluster_id_witness :
  let c := feature_at (4, 52)%Z [("cluster_id", JsNumber 0); ("point_count", JsNumber 9)] in
  has_cluster_id c ∧
  zoomCluster (click_on c) world_installed = Return tt world_installed ∧
  zoomCluster (click_on c) world_installed
  = zoomCluster (click_on (without_cluster_id c)) world_installed.
Proof.
  intros c. split.
  - eexists. split; [reflexivity|]. by exists (JsNumber 0).
  - apply (zoomCluster_falsy_cluster_id c world_installed). reflexivity.
Defined.

(** The empty string is falsy as well, while a non-zero id goes through to
    the query. *)
Lemma zoomCluster_cluster_id_examples :
  let empty := feature_at (4, 52)%Z [("cluster_id", JsString "")] in
  let five := feature_at (4, 52)%Z [("cluster_id", JsNumber 5)] in
  zoomCluster (click_on empty) world_installed = Return tt world_installed ∧
  calls_since world_installed (final (zoomCluster (click_on five) world_installed))
  = [CGetClusterExpansionZoom "clustered-users" (JsNumber 5)].
Proof. split; by vm_compute. Qed.

(** ** Answers to the expansion-zoom query *)



(** ** Icon Registrar *)

(** C8: when the image load completes with an error, the callback of
    [addPinImages] raises that very error and leaves the world as it was:
    no icon is registered, no [addImage] is issued; the event loop reports
    the error as uncaught. *)
Theorem addPinImages_load_error (e : Error) (w : World) :
  addPinImages_loaded (Some e) w = Throw e w ∧
  run_task (addPinImages_loaded (Some e)) w = set_uncaught (uncaught w ++ [e]) w.
Proof. done. Qed.

(** At the level of the event loop: a failed load registers nothing. *)
Lemma image_loaded_error (e : Error) (w : World) :
  map_images (the_map (image_loaded (Some e) w)) = map_images (the_map w) ∧
  calls (image_loaded (Some e) w) = calls w.
Proof. unfold image_loaded. by destruct (map_loading (the_map w)). Qed.

(** [addPinImages] starts a load exactly when the icon is not registered. *)
Lemma addPinImages_unregistered (w : World) :
  map_images (the_map w) !! "user-pin" = None →
  addPinImages w = Return tt
    (set_map (set_map_loading (map_loading (the_map w) ++ [userPin_src w]) (the_map w))
       (set_calls (calls w ++ [CLoadImage (userPin_src w)]) w)).
Proof.
  intros Hno. unfold addPinImages, map_hasImage, mbind, M_bind, gets.
  rewrite Hno. reflexivity.
Qed.

Lemma addPinImages_registered (w : World) :
  is_Some (map_images (the_map w) !! "user-pin") →
  addPinImages w = Return tt w.
Proof.
  intros Hreg. unfold addPinImages, map_hasImage, mbind, M_bind, gets.
  by rewrite bool_decide_eq_true_2.
Qed.

Lemma addPinImages_times_unregistered (n : nat) (w : World) :
  map_images (the_map w) !! "user-pin" = None →
  ∃ w', addPinImages_times n w = Return tt w' ∧
    map_images (the_map w') = map_images (the_map w) ∧
    map_loading (the_map w') = map_loading (the_map w) ++ replicate n (userPin_src w) ∧
    calls w' = calls w ++ replicate n (CLoadImage (userPin_src w)) ∧
    uncaught w' = uncaught w.
Proof.
  revert w. induction n as [|n IH]; intros w Hno.
  - exists w. by rewrite !app_nil_r.
  - cbn [addPinImages_times]. unfold mbind, M_bind.
    rewrite (addPinImages_unregistered w Hno).
    edestruct IH as (w' & -> & Himg & Hld & Hcalls & Hunc); [|exists w'].
    { exact Hno. }
    cbn in *. rewrite Himg, Hld, Hcalls, Hunc, <- !(assoc_L (++)). done.
Qed.

(** One completion, seen through the four components it can touch. *)
Lemma image_loaded_step (o : option Error) (w : World) (src : string) (rest : list string) :
  map_loading (the_map w) = src :: rest →
  let w' := image_loaded o w in
  map_loading (the_map w') = rest ∧
  uncaught w' = uncaught w ++ filter_defined [o] ∧
  if bool_decide (o = None ∧ map_images (the_map w) !! "user-pin" = None)
  then map_images (the_map w') = <["user-pin" := true]> (map_images (the_map w)) ∧
       calls w' = calls w ++ [CAddImage "user-pin" true]
  else map_images (the_map w') = map_images (the_map w) ∧ calls w' = calls w.
Proof.
  intros Hld. unfold image_loaded. rewrite Hld.
  destruct o as [e|].
  - rewrite bool_decide_eq_false_2 by (by intros [? _]). done.
  - unfold run_task, addPinImages_loaded, map_hasImage, mbind, M_bind, gets.
    cbn [the_map set_map map_images set_map_loading].
    destruct (map_images (the_map w) !! "user-pin") as [b|] eqn:Himg.
    + rewrite bool_decide_eq_true_2 by eauto.
      rewrite bool_decide_eq_false_2 by (by intros [_ ?]).
      cbn. by rewrite app_nil_r.
    + rewrite bool_decide_eq_false_2 by (by intros [? ?]).
      rewrite bool_decide_eq_true_2 by done.
      unfold map_addImage, mbind, M_bind, log, modify, gets. cbn.
      rewrite Himg. rewrite bool_decide_eq_false_2 by (by intros [? ?]).
      cbn. by rewrite app_nil_r.
Qed.

(** Any run of completions: at most one of them registers the icon, and
    it does so only if the icon was not registered and some load succeeded. *)
Lemma images_loaded_spec (outcomes : list (option Error)) (w : World) :
  length outcomes ≤ length (map_loading (the_map w)) →
  let w' := images_loaded outcomes w in
  map_loading (the_map w') = drop (length outcomes) (map_loading (the_map w)) ∧
  uncaught w' = uncaught w ++ filter_defined outcomes ∧
  if bool_decide (None ∈ outcomes ∧ map_images (the_map w) !! "user-pin" = None)
  then map_images (the_map w') = <["user-pin" := true]> (map_images (the_map w)) ∧
       calls w' = calls w ++ [CAddImage "user-pin" true]
  else map_images (the_map w') = map_images (the_map w) ∧ calls w' = calls w.
Proof.
  revert w. induction outcomes as [|o os IH]; intros w Hlen.
  - cbn. rewrite bool_decide_eq_false_2.
    + by rewrite app_nil_r.
    + intros [Hin _]. by apply elem_of_nil in Hin.
  - destruct (map_loading (the_map w)) as [|src rest] eqn:Hld; [cbn in Hlen; lia|].
    destruct (image_loaded_step o w src rest Hld) as (Hld1 & Hunc1 & Hreg1).
    cbn [images_loaded foldl]. fold (images_loaded os (image_loaded o w)).
    destruct (IH (image_loaded o w)) as (Hld2 & Hunc2 & Hreg2).
    { rewrite Hld1. cbn in Hlen. lia. }
    cbn zeta in *. split; [by rewrite Hld2, Hld1|]. split.
    { rewrite Hunc2, Hunc1, <- (assoc_L (++)).
      by rewrite <- filter_defined_app. }
    destruct (decide (o = None ∧ map_images (the_map w) !! "user-pin" = None))
      as [Hfirst|Hfirst];
      [rewrite bool_decide_eq_true_2 in Hreg1 by done
      |rewrite bool_decide_eq_false_2 in Hreg1 by done].
    + destruct Hfirst as [-> Hno]. destruct Hreg1 as [Himg1 Hcalls1].
      rewrite bool_decide_eq_false_2 in Hreg2.
      2:{ rewrite Himg1, lookup_insert_eq. by intros [_ ?]. }
      rewrite bool_decide_eq_true_2 by (split; [left|done]).
      destruct Hreg2 as [-> ->]. done.
    + destruct Hreg1 as [Himg1 Hcalls1]. rewrite Himg1, Hcalls1 in Hreg2.
      erewrite bool_decide_ext; [exact Hreg2|].
      rewrite elem_of_cons. split.
      * intros [[Heq|Hin] Hno]; [by destruct Hfirst|done].
      * intros [Hin Hno]. split; [by right|done].
Qed.

Lemma calls_since_app (w w' : World) (cs : list Call) :
  calls w' = calls w ++ cs → calls_since w w' = cs.
Proof. unfold calls_since. intros ->. by rewrite drop_app_length. Qed.

(** C5: [addPinImages] invoked [n] times while the icon is not registered
    and before any load completes starts [n] loads; when these complete,
    in whatever mix of failures and successes with at least one success,
    the callbacks together issue exactly one [addImage]: the icon is
    registered once, and the only errors raised are the ones the loads
    themselves reported, so no callback attempted a second registration. *)
Theorem addPinImages_registers_once (n : nat) (outcomes : list (option Error))
    (w : World) :
  map_images (the_map w) !! "user-pin" = None →
  length outcomes = length (map_loading (the_map w)) + n →
  None ∈ outcomes →
  let w1 := final (addPinImages_times n w) in
  let w2 := images_loaded outcomes w1 in
  returns (addPinImages_times n w) = true ∧
  calls_since w w1 = replicate n (CLoadImage (userPin_src w)) ∧
  calls_since w1 w2 = [CAddImage "user-pin" true] ∧
  map_images (the_map w2) = <["user-pin" := true]> (map_images (the_map w)) ∧
  map_loading (the_map w2) = [] ∧
  uncaught w2 = uncaught w ++ filter_defined outcomes.
Proof.
  intros Hno Hlen Hok.
  destruct (addPinImages_times_unregistered n w Hno)
    as (w1 & -> & Himg & Hld & Hcalls & Hunc).
  cbn [final returns]. cbn zeta.
  destruct (images_loaded_spec outcomes w1) as (Hld2 & Hunc2 & Hreg2).
  { rewrite Hld, length_app, length_replicate. lia. }
  cbn zeta in Hld2, Hunc2, Hreg2.
  rewrite bool_decide_eq_true_2 in Hreg2 by (by rewrite Himg).
  destruct Hreg2 as [Himg2 Hcalls2].
  split; [done|]. split; [by apply calls_since_app|].
  split; [by apply calls_since_app|].
  split; [by rewrite Himg2, Himg|]. split.
  - rewrite Hld2. apply drop_ge. rewrite Hld, length_app, length_replicate. lia.
  - by rewrite Hunc2, Hunc.
Qed.

Lemma addPinImages_registers_once_witness :
  let outcomes := [Some (JsError "timeout"); None; None] in
  let w1 := final (addPinImages_times 3 world_fresh) in
  let w2 := images_loaded outcomes w1 in
  returns (addPinImages_times 3 world_fresh) = true ∧
  calls_since world_fresh w1 = replicate 3 (CLoadImage (userPin_src world_fresh)) ∧
  calls_since w1 w2 = [CAddImage "user-pin" true] ∧
  map_images (the_map w2) = <["user-pin" := true]> (map_images (the_map world_fresh)) ∧
  map_loading (the_map w2) = [] ∧
  uncaught w2 = uncaught world_fresh ++ filter_defined outcomes.
Proof.
  apply (addPinImages_registers_once 3 [Some (JsError "timeout"); None; None] world_fresh).
  - reflexivity.
  - reflexivity.
  - right. left.
Defined.

(** ** Running the engine calls of one function after the other *)
Lemma bind_run {A B : Type} (m : M A) (f : A → M B) (w : World) :
  (m ≫= f) w = match m w with Return a w' => f a w' | Throw e w' => Throw e w' end.
Proof. reflexivity. Qed.

Lemma map_removeLayer_run (id : string) (w : World) :
  map_removeLayer id w =
  let w1 := set_calls (calls w ++ [CRemoveLayer id]) w in
  if has_layer id (the_map w)
  then Return tt (set_map (set_map_layers
         (filter (λ l, layer_id l ≠ id) (map_layers (the_map w))) (the_map w)) w1)
  else Throw (EngineError (CRemoveLayer id)) w1.
Proof.
  unfold map_removeLayer, mbind, M_bind, log, modify, gets. cbn.
  by destruct (has_layer id (the_map w)).
Qed.

Lemma map_removeSource_run (id : string) (w : World) :
  map_removeSource id w =
  let w1 := set_calls (calls w ++ [CRemoveSource id]) w in
  if has_source id (the_map w) && negb (source_in_use id (the_map w))
  then Return tt (set_map (set_map_sources
         (delete id (map_sources (the_map w))) (the_map w)) w1)
  else Throw (EngineError (CRemoveSource id)) w1.
Proof.
  unfold map_removeSource, mbind, M_bind, log, modify, gets. cbn.
  by destruct (has_source id (the_map w) && _).
Qed.

Lemma map_addSource_run (id : string) (cfg : SourceConfig) (w : World) :
  map_addSource id cfg w =
  let w1 := set_calls (calls w ++ [CAddSource id cfg]) w in
  if has_source id (the_map w)
  then Throw (EngineError (CAddSource id cfg)) w1
  else Return tt (set_map (set_map_sources
         (<[id := cfg]> (map_sources (the_map w))) (the_map w)) w1).
Proof.
  unfold map_addSource, mbind, M_bind, log, modify, gets. cbn.
  by destruct (has_source id (the_map w)).
Qed.

Lemma map_addLayer_run (l : LayerSpec) (w : World) :
  map_addLayer l w =
  let w1 := set_calls (calls w ++ [CAddLayer l]) w in
  if negb (has_layer (layer_id l) (the_map w)) && has_source (layer_source l) (the_map w)
  then Return tt (set_map (set_map_layers (map_layers (the_map w) ++ [l]) (the_map w)) w1)
  else Throw (EngineError (CAddLayer l)) w1.
Proof.
  unfold map_addLayer, mbind, M_bind, log, modify, gets. cbn.
  by destruct (negb _ && _).
Qed.


Lemma installed_unfold (m : Map) :
  installed m = true →
  is_Some (map_sources m !! "clustered-users") ∧
  "clusters" ∈ layer_ids m ∧ "clusters-count" ∈ layer_ids m ∧
  "unclustered-points" ∈ layer_ids m ∧
  ∀ l, l ∈ map_layers m → layer_source l = "clustered-users" →
       layer_id l ∈ cluster_layer_ids.
Proof.
  unfold installed, has_source, has_layer. cbn [forallb cluster_layer_ids].
  rewrite !andb_true_iff, !bool_decide_eq_true.
  intros [(Hsrc & H1 & H2 & H3 & _) Hall]. repeat (split; [done|]).
  intros l Hl. rewrite forallb_forall in Hall.
  specialize (Hall l). rewrite bool_decide_eq_true in Hall.
  apply Hall. by apply list_elem_of_In.
Qed.

Lemma elem_of_layer_ids_remove (id id' : string) (ls : list LayerSpec) :
  id' ∈ layer_id <$> remove_layer id ls ↔ id' ≠ id ∧ id' ∈ layer_id <$> ls.
Proof.
  unfold remove_layer. rewrite !list_elem_of_fmap. split.
  - intros (l & -> & Hl). apply list_elem_of_filter in Hl as [Hne Hl]. eauto.
  - intros (Hne & l & -> & Hl). exists l. split; [done|].
    by apply list_elem_of_filter.
Qed.


Ltac world_cbn :=
  cbn [the_map set_map set_calls set_sources set_uncaught sources userPin_src
       uncaught calls map_sources map_layers map_listeners map_images
       map_loading map_queries set_map_sources set_map_layers
       set_map_listeners set_map_images set_map_loading set_map_queries
       layer_id layer_source clusterLayer clusterCountLayer
       unclusteredPointLayer].

Ltac world_cbn_all :=
  cbn [the_map set_map set_calls set_sources set_uncaught sources userPin_src
       uncaught calls map_sources map_layers map_listeners map_images
       map_loading map_queries set_map_sources set_map_layers
       set_map_listeners set_map_images set_map_loading set_map_queries
       layer_id layer_source clusterLayer clusterCountLayer
       unclusteredPointLayer] in *.

Ltac layer_cond :=
  unfold has_layer, has_source, source_in_use, layer_ids; world_cbn.

Lemma reRenderUsersOnMap_remove_run (w : World) :
  installed (the_map w) = true →
  reRenderUsersOnMap_remove w = Return tt (removed w).
Proof.
  intros Hinst. apply installed_unfold in Hinst as (Hsrc & H1 & H2 & H3 & Hall).
  destruct w as [s p [srcs ls bs imgs ld qs] u c].
  unfold layer_ids in *. world_cbn_all.
  unfold reRenderUsersOnMap_remove, removed.
  rewrite bind_run, map_removeLayer_run. cbn zeta. layer_cond.
  rewrite bool_decide_eq_true_2 by done.
  rewrite bind_run, map_removeLayer_run. cbn zeta. layer_cond.
  fold (remove_layer "clusters" ls).
  rewrite bool_decide_eq_true_2 by (by apply elem_of_layer_ids_remove).
  rewrite bind_run, map_removeLayer_run. cbn zeta. layer_cond.
  fold (remove_layer "clusters-count" (remove_layer "clusters" ls)).
  rewrite bool_decide_eq_true_2 by (by rewrite !elem_of_layer_ids_remove).
  rewrite map_removeSource_run. cbn zeta. layer_cond.
  fold (remove_layer "unclustered-points"
          (remove_layer "clusters-count" (remove_layer "clusters" ls))).
  rewrite (bool_decide_eq_true_2 _ Hsrc).
  rewrite bool_decide_eq_false_2.
  - cbn [andb negb]. by rewrite <- !(assoc_L (++)).
  - rewrite Exists_exists. intros (l & Hl & Hsrcl).
    unfold remove_layer in Hl. rewrite !list_elem_of_filter in Hl.
    destruct Hl as (Hn3 & Hn2 & Hn1 & Hl).
    specialize (Hall l Hl Hsrcl). unfold cluster_layer_ids in Hall.
    world_cbn_all.
    repeat (apply elem_of_cons in Hall as [?|Hall]; [done|]).
    by apply elem_of_nil in Hall.
Qed.

Lemma map_on_run (type layer : string) (h : Handler) (w : World) :
  map_on type layer h w =
  Return tt (set_map (set_map_listeners
               (map_listeners (the_map w) ++ [(type, layer, h)]) (the_map w))
             (set_calls (calls w ++ [COn type layer h]) w)).
Proof. reflexivity. Qed.

Lemma map_off_run (type layer : string) (h : Handler) (w : World) :
  map_off type layer h w =
  Return tt (set_map (set_map_listeners
               (remove_first (type, layer, h) (map_listeners (the_map w))) (the_map w))
             (set_calls (calls w ++ [COff type layer h]) w)).
Proof. reflexivity. Qed.

Lemma addClusteredUsersToMap_handlers_run (cb : option Handler) (w : World) :
  addClusteredUsersToMap_handlers cb w =
  Return tt (set_map (set_map_listeners
               (map_listeners (the_map w) ++ point_binding cb ++ [cluster_binding])
               (the_map w))
             (set_calls (calls w ++ (on_call <$> point_binding cb ++ [cluster_binding])) w)).
Proof.
  destruct w as [s p [srcs ls bs imgs ld qs] u c].
  unfold addClusteredUsersToMap_handlers. rewrite bind_run.
  destruct cb as [h|]; unfold mret, M_ret; rewrite !map_on_run; world_cbn;
    unfold point_binding, cluster_binding, on_call; cbn [fmap list_fmap app fst snd];
    by rewrite <- ?(assoc_L (++)).
Qed.

Lemma reRenderUsersOnMap_handlers_run (cb : option Handler) (w : World) :
  reRenderUsersOnMap_handlers cb w =
  match cb with
  | Some h =>
      Return tt (set_map (set_map_listeners
                   (remove_first cluster_binding
                      (remove_first ("click", "unclustered-points", h)
                         (map_listeners (the_map w))))
                   (the_map w))
                 (set_calls (calls w ++ [COff "click" "unclustered-points" h;
                                          COff "click" "clusters" HZoomCluster]) w))
  | None => Return tt w
  end.
Proof.
  destruct w as [s p [srcs ls bs imgs ld qs] u c].
  destruct cb as [h|]; [|done].
  unfold reRenderUsersOnMap_handlers. rewrite bind_run, !map_off_run.
  world_cbn. by rewrite <- !(assoc_L (++)).
Qed.

Lemma not_elem_of_layer_ids_snoc (id : string) (ls : list LayerSpec) (l : LayerSpec) :
  id ∉ layer_id <$> ls → id ≠ layer_id l → id ∉ layer_id <$> (ls ++ [l]).
Proof.
  intros Hls Hl. rewrite fmap_app, elem_of_app. intros [?|Hin]; [done|].
  by apply list_elem_of_singleton in Hin.
Qed.

Lemma addPinImages_run (w : World) :
  addPinImages w =
  Return tt (set_map (set_map_loading (map_loading (the_map w) ++ pin_load w) (the_map w))
               (set_calls (calls w ++ (CLoadImage <$> pin_load w)) w)).
Proof.
  unfold pin_load. case_bool_decide as Hreg.
  - rewrite (addPinImages_registered w Hreg).
    destruct w as [s p [srcs ls bs imgs ld qs] u c]. world_cbn.
    cbn [fmap list_fmap]. by rewrite !app_nil_r.
  - rewrite addPinImages_unregistered; [done|].
    by destruct (map_images (the_map w) !! "user-pin"); [destruct Hreg; eauto|].
Qed.

Lemma addClusteredUsersToMap_run (cb : option Handler) (w : World) :
  map_sources (the_map w) !! "clustered-users" = None →
  (∀ id, id ∈ cluster_layer_ids → id ∉ layer_ids (the_map w)) →
  addClusteredUsersToMap cb w = Return tt (added cb w).
Proof.
  intros Hsrc Hfree.
  assert ("clusters" ∉ layer_ids (the_map w)) as H1
    by (apply Hfree; unfold cluster_layer_ids; world_cbn; repeat constructor).
  assert ("clusters-count" ∉ layer_ids (the_map w)) as H2
    by (apply Hfree; unfold cluster_layer_ids; world_cbn; repeat constructor).
  assert ("unclustered-points" ∉ layer_ids (the_map w)) as H3
    by (apply Hfree; unfold cluster_layer_ids; world_cbn; repeat constructor).
  clear Hfree. unfold layer_ids in *.
  unfold addClusteredUsersToMap, added.
  rewrite bind_run. unfold gets at 1. cbn iota.
  rewrite bind_run, map_addSource_run. cbn zeta. layer_cond.
  rewrite bool_decide_eq_false_2 by (rewrite Hsrc; by intros [? ?]).
  rewrite bind_run, addPinImages_run.
  assert (pin_load (set_map (set_map_sources
            (<["clustered-users" := sources w]> (map_sources (the_map w))) (the_map w))
            (set_calls (calls w ++ [CAddSource "clustered-users" (sources w)]) w))
          = pin_load w) as -> by (by destruct w as [? ? [] ? ?]).
  destruct w as [s p [srcs ls bs imgs ld qs] u c]. world_cbn_all.
  set (load := pin_load _).
  assert (is_Some (<["clustered-users" := s]> srcs !! "clustered-users")) as Hin
    by (rewrite lookup_insert_eq; eauto).
  rewrite bind_run, map_addLayer_run. cbn zeta. layer_cond.
  rewrite (bool_decide_eq_false_2 _ H1), (bool_decide_eq_true_2 _ Hin).
  cbn [negb andb].
  rewrite bind_run, map_addLayer_run. cbn zeta. layer_cond.
  rewrite bool_decide_eq_false_2 by (by apply not_elem_of_layer_ids_snoc).
  rewrite (bool_decide_eq_true_2 _ Hin). cbn [negb andb].
  rewrite bind_run, map_addLayer_run. cbn zeta. layer_cond.
  rewrite bool_decide_eq_false_2
    by (by repeat apply not_elem_of_layer_ids_snoc).
  rewrite (bool_decide_eq_true_2 _ Hin). cbn [negb andb].
  rewrite addClusteredUsersToMap_handlers_run. world_cbn.
  by rewrite <- !(assoc_L (++)).
Qed.

Lemma reRenderUsersOnMap_filter_run (ids : option (list Z)) (w : World) :
  reRenderUsersOnMap_filter ids w
  = Return tt (set_sources (with_filter (sources w) (filter_for ids)) w).
Proof. by destruct ids. Qed.

(** Removing listeners leaves the source and the layers alone. *)
Lemma reRenderUsersOnMap_handlers_installed (cb : option Handler) (w : World) :
  installed (the_map (final (reRenderUsersOnMap_handlers cb w)))
  = installed (the_map w).
Proof. rewrite reRenderUsersOnMap_handlers_run. by destruct cb. Qed.

Lemma reRenderUsersOnMap_run (ids : option (list Z)) (cb : option Handler) (w : World) :
  installed (the_map w) = true →
  reRenderUsersOnMap ids cb w =
  Return tt (added cb
    (set_sources (with_filter (sources w) (filter_for ids))
       (removed (final (reRenderUsersOnMap_handlers cb w))))).
Proof.
  intros Hinst. rewrite <- (reRenderUsersOnMap_handlers_installed cb) in Hinst.
  unfold reRenderUsersOnMap. rewrite bind_run.
  destruct (reRenderUsersOnMap_handlers cb w) as [[] w0|e w0] eqn:Hoff.
  2:{ rewrite reRenderUsersOnMap_handlers_run in Hoff. by destruct cb. }
  cbn [final] in *.
  rewrite bind_run, (reRenderUsersOnMap_remove_run w0 Hinst).
  rewrite bind_run, reRenderUsersOnMap_filter_run.
  assert (sources (removed w0) = sources w) as ->.
  { rewrite reRenderUsersOnMap_handlers_run in Hoff.
    destruct cb; injection Hoff as <-; by destruct w. }
  apply addClusteredUsersToMap_run.
  - unfold removed. world_cbn. apply lookup_delete_eq.
  - intros id Hid. unfold removed, layer_ids. world_cbn.
    rewrite !elem_of_layer_ids_remove. intros (Hn3 & Hn2 & Hn1 & _).
    unfold cluster_layer_ids in Hid. world_cbn_all.
    repeat (apply elem_of_cons in Hid as [?|Hid]; [done|]).
    by apply elem_of_nil in Hid.
Qed.

(** ** Filter Rebuilder *)

(** What the in-literal-list test accepts: the features whose [id] is a
    number of the list. *)
Lemma feature_passes_in (S : list Z) (ps : gmap string JsValue) :
  feature_passes (EIn (EGet "id") (ELiteral S)) ps = true
  ↔ ∃ n, ps !! "id" = Some (JsNumber n) ∧ n ∈ S.
Proof.
  cbn [feature_passes]. split.
  - destruct (ps !! "id") as [[]|]; try done.
    rewrite bool_decide_eq_true. eauto.
  - intros (n & -> & Hin). by apply bool_decide_eq_true.
Qed.

Lemma after_reRenderUsersOnMap (ids : option (list Z)) (cb : option Handler)
    (w : World) :
  installed (the_map w) = true →
  let o := reRenderUsersOnMap ids cb w in
  returns o = true ∧
  sources (final o) = with_filter (sources w) (filter_for ids) ∧
  map_sources (the_map (final o)) !! "clustered-users" = Some (sources (final o)).
Proof.
  intros Hinst. cbn zeta. rewrite (reRenderUsersOnMap_run ids cb w Hinst).
  cbn [returns final]. split; [done|]. split; [done|].
  unfold added. world_cbn. apply lookup_insert_eq.
Qed.



(** C9: the empty id list is not null.  With [[]] the installed source
    carries the membership test over the empty list, which no feature
    passes; with null it carries no filter; the two calls end in different
    worlds. *)
Theorem reRenderUsersOnMap_empty_is_not_null (cb : option Handler) (w : World) :
  installed (the_map w) = true →
  let o_empty := reRenderUsersOnMap (Some []) cb w in
  let o_null := reRenderUsersOnMap None cb w in
  returns o_empty = true ∧ returns o_null = true ∧
  (source_filter <$> map_sources (the_map (final o_empty)) !! "clustered-users")
    = Some (Some (EIn (EGet "id") (ELiteral []))) ∧
  (∀ ps, feature_passes (EIn (EGet "id") (ELiteral [])) ps = false) ∧
  (source_filter <$> map_sources (the_map (final o_null)) !! "clustered-users")
    = Some None ∧
  final o_empty ≠ final o_null.
Proof.
  intros Hinst. cbn zeta.
  destruct (after_reRenderUsersOnMap (Some []) cb w Hinst) as (Hr1 & Hs1 & Hm1).
  destruct (after_reRenderUsersOnMap None cb w Hinst) as (Hr2 & Hs2 & Hm2).
  cbn zeta in *. rewrite Hm1, Hm2, Hs1, Hs2.
  repeat (split; [done|]). split; [|split; [done|]].
  - intros ps. destruct (feature_passes _ ps) eqn:Hp; [|done].
    apply feature_passes_in in Hp as (n & _ & Hin). by apply elem_of_nil in Hin.
  - intros Heq. rewrite Heq, Hs2 in Hs1. discriminate.
Qed.

Lemma reRenderUsersOnMap_empty_is_not_null_witness :
  let o_empty := reRenderUsersOnMap (Some []) None world_installed in
  let o_null := reRenderUsersOnMap None None world_installed in
  returns o_empty = true ∧ returns o_null = true ∧
  (source_filter <$> map_sources (the_map (final o_empty)) !! "clustered-users")
    = Some (Some (EIn (EGet "id") (ELiteral []))) ∧
  (∀ ps, feature_passes (EIn (EGet "id") (ELiteral [])) ps = false) ∧
  (source_filter <$> map_sources (the_map (final o_null)) !! "clustered-users")
    = Some None ∧
  final o_empty ≠ final o_null.
Proof.
  apply (reRenderUsersOnMap_empty_is_not_null None world_installed).
  vm_compute. reflexivity.
Defined.

(** [reRenderUsersOnMap] leaves the map installed, so it can be called
    again. *)
Lemma reRenderUsersOnMap_installed (ids : option (list Z)) (cb : option Handler)
    (w : World) :
  installed (the_map w) = true →
  installed (the_map (final (reRenderUsersOnMap ids cb w))) = true.
Proof.
  intros Hinst. rewrite (reRenderUsersOnMap_run ids cb w Hinst). cbn [final].
  rewrite <- (reRenderUsersOnMap_handlers_installed cb) in Hinst.
  apply installed_unfold in Hinst as (_ & _ & _ & _ & Hall).
  set (w0 := final (reRenderUsersOnMap_handlers cb w)) in *.
  unfold installed, has_source, has_layer, layer_ids, added, removed.
  world_cbn. rewrite lookup_insert_eq.
  rewrite bool_decide_eq_true_2 by eauto. cbn [andb].
  apply andb_true_iff. split.
  - unfold cluster_layer_ids. world_cbn. cbn [forallb].
    rewrite !andb_true_iff, !bool_decide_eq_true, !fmap_app, !elem_of_app.
    cbn [fmap list_fmap]. world_cbn.
    repeat split; try done; right; repeat constructor.
  - apply forallb_forall. intros l Hl. apply bool_decide_eq_true. intros Hsrc.
    apply list_elem_of_In, elem_of_app in Hl as [Hl|Hl].
    + unfold remove_layer in Hl. rewrite !list_elem_of_filter in Hl.
      destruct Hl as (_ & _ & _ & Hl). by apply Hall.
    + unfold cluster_layer_ids.
      repeat (apply elem_of_cons in Hl as [->|Hl]; [repeat constructor|]).
      by apply elem_of_nil in Hl.
Qed.

(** ** Uninstall order *)

(** C3, as the code has it: on an installed map, lines 184-187 return
    after removing the three layers in the order they were added,
    [clusters], [clusters-count], [unclustered-points], and only then the
    source; afterwards the source and the three layers are gone. *)
Theorem reRenderUsersOnMap_remove_order (w : World) :
  installed (the_map w) = true →
  let o := reRenderUsersOnMap_remove w in
  returns o = true ∧
  calls_since w (final o)
    = (CRemoveLayer ∘ layer_id
         <$> [clusterLayer; clusterCountLayer; unclusteredPointLayer])
      ++ [CRemoveSource "clustered-users"] ∧
  has_source "clustered-users" (the_map (final o)) = false ∧
  ∀ id, id ∈ cluster_layer_ids → has_layer id (the_map (final o)) = false.
Proof.
  intros Hinst. cbn zeta. rewrite (reRenderUsersOnMap_remove_run w Hinst).
  cbn [returns final]. split; [done|]. split; [|split].
  - by apply calls_since_app.
  - unfold has_source, removed. world_cbn. rewrite lookup_delete_eq.
    apply bool_decide_eq_false_2. by intros [? ?].
  - intros id Hid. unfold has_layer, layer_ids, removed. world_cbn.
    apply bool_decide_eq_false_2. rewrite !elem_of_layer_ids_remove.
    intros (Hn3 & Hn2 & Hn1 & _).
    unfold cluster_layer_ids in Hid. world_cbn_all.
    repeat (apply elem_of_cons in Hid as [?|Hid]; [done|]).
    by apply elem_of_nil in Hid.
Qed.

Lemma reRenderUsersOnMap_remove_order_witness :
  let o := reRenderUsersOnMap_remove world_installed in
  returns o = true ∧
  calls_since world_installed (final o)
    = (CRemoveLayer ∘ layer_id
         <$> [clusterLayer; clusterCountLayer; unclusteredPointLayer])
      ++ [CRemoveSource "clustered-users"] ∧
  has_source "clustered-users" (the_map (final o)) = false ∧
  ∀ id, id ∈ cluster_layer_ids → has_layer id (the_map (final o)) = false.
Proof.
  apply (reRenderUsersOnMap_remove_order world_installed).
  vm_compute. reflexivity.
Defined.

(** C3 as stated fails: the layers are not removed in the reverse of the
    order they were added. *)
Lemma reRenderUsersOnMap_remove_not_reversed :
  let w' := final (reRenderUsersOnMap_remove world_installed) in
  calls_since world_installed w'
    = [CRemoveLayer "clusters"; CRemoveLayer "clusters-count";
       CRemoveLayer "unclustered-points"; CRemoveSource "clustered-users"] ∧
  calls_since world_installed w'
    ≠ [CRemoveLayer "unclustered-points"; CRemoveLayer "clusters-count";
       CRemoveLayer "clusters"; CRemoveSource "clustered-users"].
Proof.
  assert (calls_since world_installed (final (reRenderUsersOnMap_remove world_installed))
    = [CRemoveLayer "clusters"; CRemoveLayer "clusters-count";
       CRemoveLayer "unclustered-points"; CRemoveSource "clustered-users"]) as Heq
    by (by vm_compute).
  cbn zeta. rewrite Heq. split; [done|discriminate].
Qed.

(** On any map, installed or not, the calls of lines 184-187 are an
    initial part of that sequence: the source is never asked to go before
    the three layers have been. *)
Lemma reRenderUsersOnMap_remove_prefix (w : World) :
  calls_since w (final (reRenderUsersOnMap_remove w))
  `prefix_of` [CRemoveLayer "clusters"; CRemoveLayer "clusters-count";
               CRemoveLayer "unclustered-points"; CRemoveSource "clustered-users"].
Proof.
  destruct w as [s p [srcs ls bs imgs ld qs] u c].
  unfold reRenderUsersOnMap_remove.
  repeat (rewrite ?bind_run, ?map_removeLayer_run, ?map_removeSource_run;
          cbn zeta; world_cbn;
          match goal with
          | |- context [if ?b then _ else _] => destruct b
          end);
    cbn [final]; unfold calls_since; world_cbn;
    rewrite <- ?(assoc_L (++)), drop_app_length; cbn [app];
    eexists; reflexivity.
Qed.

(** ** Handlers *)

Lemma remove_first_perm (b : Binding) (bs : list Binding) :
  b ∈ bs → b :: remove_first b bs ≡ₚ bs.
Proof.
  induction bs as [|b' bs IH]; intros Hin; [by apply elem_of_nil in Hin|].
  cbn [remove_first]. destruct (decide (b' = b)) as [->|Hne]; [done|].
  apply elem_of_cons in Hin as [->|Hin]; [done|].
  rewrite Permutation_swap. by rewrite IH.
Qed.

Lemma elem_of_remove_first_ne (b b' : Binding) (bs : list Binding) :
  b' ≠ b → b' ∈ bs → b' ∈ remove_first b bs.
Proof.
  intros Hne. induction bs as [|x bs IH]; intros Hin; [done|].
  cbn [remove_first]. destruct (decide (x = b)) as [->|Hx].
  - by apply elem_of_cons in Hin as [?|?].
  - apply elem_of_cons in Hin as [->|Hin]; [left|right; auto].
Qed.

(** With a point-click callback, what lines 158-162 register is what
    lines 179-182 remove: the listeners are, up to order, the ones from
    before. *)
Lemma handlers_symmetric_with_callback (h : Handler) (w : World) :
  let bound := final (addClusteredUsersToMap_handlers (Some h) w) in
  let unbound := final (reRenderUsersOnMap_handlers (Some h) bound) in
  map_listeners (the_map unbound) ≡ₚ map_listeners (the_map w).
Proof.
  cbn zeta. rewrite addClusteredUsersToMap_handlers_run. cbn [final].
  rewrite reRenderUsersOnMap_handlers_run. cbn [final]. world_cbn.
  cbn [point_binding app].
  set (b1 := ("click", "unclustered-points", h)).
  set (bs := map_listeners (the_map w) ++ [b1; cluster_binding]).
  assert (b1 ∈ bs) as H1 by (apply elem_of_app; right; left).
  assert (cluster_binding ∈ remove_first b1 bs) as H2.
  { apply elem_of_remove_first_ne; [done|].
    apply elem_of_app; right; right; left. }
  apply (inj (cons cluster_binding)), (inj (cons b1)). unfold bs in *.
  rewrite (remove_first_perm _ _ H2), (remove_first_perm _ _ H1).
  by rewrite (comm (++)).
Qed.

(** C2 fails on the code when the callback is omitted: lines 158-162
    register [zoomCluster] on the cluster layer all the same, lines 179-182
    then remove nothing, and the map is left with one listener more than
    before; on a map without listeners, the set of bindings goes from empty
    to that one listener. *)
Theorem handlers_leak_without_callback (w : World) :
  let bound := final (addClusteredUsersToMap_handlers None w) in
  let unbound := final (reRenderUsersOnMap_handlers None bound) in
  calls_since bound unbound = [] ∧
  map_listeners (the_map unbound)
    = map_listeners (the_map w) ++ [("click", "clusters", HZoomCluster)] ∧
  ¬ (map_listeners (the_map unbound) ≡ₚ map_listeners (the_map w)).
Proof.
  cbn zeta. rewrite addClusteredUsersToMap_handlers_run. cbn [final].
  rewrite reRenderUsersOnMap_handlers_run. cbn [final]. world_cbn.
  cbn [point_binding app]. split; [|split; [done|]].
  - unfold calls_since. by rewrite drop_all.
  - intros Hperm. apply Permutation_length in Hperm.
    rewrite length_app in Hperm. cbn in Hperm. lia.
Qed.

Lemma handlers_leak_on_fresh_map :
  let bound := final (addClusteredUsersToMap_handlers None world_fresh) in
  let unbound := final (reRenderUsersOnMap_handlers None bound) in
  map_listeners (the_map world_fresh) = [] ∧
  map_listeners (the_map unbound) = [("click", "clusters", HZoomCluster)].
Proof. done. Qed.

(** Each [reRenderUsersOnMap] without callback therefore adds one more
    [zoomCluster] listener to the cluster layer. *)
Lemma reRenderUsersOnMap_without_callback_accumulates (ids : option (list Z))
    (w : World) :
  installed (the_map w) = true →
  map_listeners (the_map (final (reRenderUsersOnMap ids None w)))
  = map_listeners (the_map w) ++ [cluster_binding].
Proof.
  intros Hinst. by rewrite (reRenderUsersOnMap_run ids None w Hinst).
Qed.

(** With a callback the listeners are kept up to order. *)
Lemma reRenderUsersOnMap_with_callback_listeners (ids : option (list Z))
    (h : Handler) (w : World) :
  installed (the_map w) = true →
  ("click", "unclustered-points", h) ∈ map_listeners (the_map w) →
  cluster_binding ∈ map_listeners (the_map w) →
  map_listeners (the_map (final (reRenderUsersOnMap ids (Some h) w)))
  ≡ₚ map_listeners (the_map w).
Proof.
  intros Hinst H1 H2. rewrite (reRenderUsersOnMap_run ids (Some h) w Hinst).
  cbn [final]. rewrite reRenderUsersOnMap_handlers_run. cbn [final].
  unfold added, removed. world_cbn. cbn [point_binding app].
  set (b1 := ("click", "unclustered-points", h)) in *.
  assert (cluster_binding ∈ remove_first b1 (map_listeners (the_map w))) as H2'
    by (by apply elem_of_remove_first_ne).
  rewrite (comm (++)). cbn [app].
  by rewrite (remove_first_perm _ _ H2'), (remove_first_perm _ _ H1).
Qed.

(** ** Icon Registrar: any interleaving of invocations and completions *)

Lemma count_addImage_app (cs cs' : list Call) :
  count_addImage (cs ++ cs') = count_addImage cs + count_addImage cs'.
Proof. unfold count_addImage. by rewrite filter_app, length_app. Qed.

Lemma icon_event_step (ev : IconEvent) (w : World) :
  ∃ cs, calls (icon_event ev w) = calls w ++ cs ∧
    count_addImage cs
      = (if negb (pin_registered w) && pin_registered (icon_event ev w)
         then 1 else 0) ∧
    (pin_registered w = true → pin_registered (icon_event ev w) = true).
Proof.
  destruct ev as [|o]; cbn [icon_event].
  - unfold run_task. rewrite addPinImages_run.
    exists (CLoadImage <$> pin_load w). split; [done|].
    replace (pin_registered (set_map _ _)) with (pin_registered w)
      by (by destruct w as [? ? [] ? ?]).
    split; [|done]. unfold pin_load.
    destruct (pin_registered w) eqn:Hreg; unfold pin_registered in Hreg;
      rewrite Hreg; done.
  - destruct (map_loading (the_map w)) as [|src rest] eqn:Hld.
    { unfold image_loaded. rewrite Hld. exists []. rewrite app_nil_r.
      split; [done|]. split; [|done]. by destruct (pin_registered w). }
    destruct (image_loaded_step o w src rest Hld) as (_ & _ & Hreg).
    cbn zeta in Hreg. unfold pin_registered.
    case_bool_decide as Hfirst.
    + destruct Hfirst as [-> Hno]. destruct Hreg as [Himg Hcalls].
      exists [CAddImage "user-pin" true]. split; [done|].
      rewrite Himg, lookup_insert_eq, Hno.
      rewrite bool_decide_eq_false_2 by (by intros [? ?]).
      rewrite bool_decide_eq_true_2 by eauto. done.
    + destruct Hreg as [Himg Hcalls]. exists []. rewrite app_nil_r.
      split; [done|]. rewrite Himg. split; [|done].
      by destruct (bool_decide _).
Qed.

(** However invocations and completions interleave, [addImage] is issued
    once if the icon gets registered on the way and never otherwise; once
    registered, the icon stays registered. *)
Lemma icon_events_register_once (evs : list IconEvent) (w : World) :
  ∃ cs, calls (icon_events evs w) = calls w ++ cs ∧
    count_addImage cs
      = (if negb (pin_registered w) && pin_registered (icon_events evs w)
         then 1 else 0) ∧
    (pin_registered w = true → pin_registered (icon_events evs w) = true).
Proof.
  revert w. induction evs as [|ev evs IH]; intros w.
  - exists []. rewrite app_nil_r. cbn. split; [done|]. split; [|done].
    by destruct (pin_registered w).
  - cbn [icon_events foldl]. fold (icon_events evs (icon_event ev w)).
    destruct (icon_event_step ev w) as (cs1 & Hc1 & Hn1 & Hm1).
    destruct (IH (icon_event ev w)) as (cs2 & Hc2 & Hn2 & Hm2).
    exists (cs1 ++ cs2). split; [by rewrite Hc2, Hc1, (assoc_L (++))|].
    rewrite count_addImage_app, Hn1, Hn2. split; [|by auto].
    destruct (pin_registered w) eqn:H0;
      destruct (pin_registered (icon_event ev w)) eqn:H1; cbn [negb andb].
    + done.
    + by specialize (Hm1 eq_refl).
    + by rewrite (Hm2 eq_refl).
    + done.
Qed.

(** * Further properties of the module *)

(** ** Installing and uninstalling *)

Lemma uninstalled_unfold (m : Map) :
  uninstalled m = true →
  map_sources m !! "clustered-users" = None ∧
  (∀ id, id ∈ cluster_layer_ids → id ∉ layer_ids m) ∧
  ∀ l, l ∈ map_layers m → layer_source l ≠ "clustered-users".
Proof.
  unfold uninstalled, has_source, has_layer.
  rewrite !andb_true_iff, negb_true_iff, bool_decide_eq_false, !forallb_forall.
  intros [[Hsrc Hids] Hls]. split; [|split].
  - destruct (map_sources m !! "clustered-users") eqn:E; [|done].
    destruct Hsrc. eauto.
  - intros id Hid. specialize (Hids id). rewrite negb_true_iff, bool_decide_eq_false in Hids.
    apply Hids. by apply list_elem_of_In.
  - intros l Hl. specialize (Hls l). rewrite bool_decide_eq_true in Hls.
    apply Hls. by apply list_elem_of_In.
Qed.

Lemma other_layers_remove (ls : list LayerSpec) :
  remove_layer "unclustered-points"
    (remove_layer "clusters-count" (remove_layer "clusters" ls))
  = other_layers ls.
Proof.
  unfold remove_layer, other_layers. rewrite !list_filter_filter.
  apply list_filter_iff. intros l. unfold cluster_layer_ids. world_cbn.
  rewrite !not_elem_of_cons. split.
  - intros [[H3 H2] H1]. repeat split; try done. apply not_elem_of_nil.
  - intros (H1 & H2 & H3 & _). done.
Qed.

Lemma other_layers_id (ls : list LayerSpec) :
  (∀ id, id ∈ cluster_layer_ids → id ∉ layer_id <$> ls) →
  other_layers ls = ls.
Proof.
  intros Hfree. unfold other_layers.
  induction ls as [|l ls IH]; [done|].
  rewrite filter_cons_True.
  - f_equal. apply IH. intros id Hid Hin. apply (Hfree id Hid).
    rewrite fmap_cons. by right.
  - intros Hin. apply (Hfree _ Hin). rewrite fmap_cons. by left.
Qed.

Lemma installed_intro (m : Map) :
  is_Some (map_sources m !! "clustered-users") →
  (∀ id, id ∈ cluster_layer_ids → id ∈ layer_ids m) →
  (∀ l, l ∈ map_layers m → layer_source l = "clustered-users" →
        layer_id l ∈ cluster_layer_ids) →
  installed m = true.
Proof.
  intros Hsrc Hids Hall. unfold installed, has_source, has_layer.
  rewrite !andb_true_iff, bool_decide_eq_true, !forallb_forall.
  split; [split; [done|]|].
  - intros id Hid. apply bool_decide_eq_true, Hids. by apply list_elem_of_In.
  - intros l Hl. apply bool_decide_eq_true, Hall. by apply list_elem_of_In.
Qed.

Lemma uninstalled_intro (m : Map) :
  map_sources m !! "clustered-users" = None →
  (∀ id, id ∈ cluster_layer_ids → id ∉ layer_ids m) →
  (∀ l, l ∈ map_layers m → layer_source l ≠ "clustered-users") →
  uninstalled m = true.
Proof.
  intros Hsrc Hids Hall. unfold uninstalled, has_source, has_layer.
  rewrite !andb_true_iff, negb_true_iff, bool_decide_eq_false, !forallb_forall.
  split; [split|].
  - rewrite Hsrc. by intros [? ?].
  - intros id Hid. apply negb_true_iff, bool_decide_eq_false, Hids.
    by apply list_elem_of_In.
  - intros l Hl. apply bool_decide_eq_true, Hall. by apply list_elem_of_In.
Qed.

Lemma cluster_layers_ids :
  layer_id <$> [clusterLayer; clusterCountLayer; unclusteredPointLayer]
  = cluster_layer_ids.
Proof. reflexivity. Qed.

Lemma installed_added (cb : option Handler) (w : World) :
  (∀ l, l ∈ map_layers (the_map w) → layer_source l ≠ "clustered-users") →
  installed (the_map (added cb w)) = true.
Proof.
  intros Hall. apply installed_intro; unfold added, layer_ids; world_cbn.
  - rewrite lookup_insert_eq. eauto.
  - intros id Hid. rewrite fmap_app, cluster_layers_ids, elem_of_app. by right.
  - intros l Hl Hsrc. apply elem_of_app in Hl as [Hl|Hl].
    + by destruct (Hall l Hl).
    + rewrite <- cluster_layers_ids. by apply list_elem_of_fmap_2.
Qed.

(** X1: on a map that carries nothing of the clustered users,
    [addClusteredUsersToMap] returns normally and leaves the map installed:
    the source is the shared source object as it is at that moment, the
    three layers lie on top of the layers that were there, in the order
    clusters, counts, points, and the listeners are the old ones followed
    by the caller's (if any) and [zoomCluster]. *)
Theorem addClusteredUsersToMap_installs (cb : option Handler) (w : World) :
  uninstalled (the_map w) = true →
  let o := addClusteredUsersToMap cb w in
  returns o = true ∧
  installed (the_map (final o)) = true ∧
  map_sources (the_map (final o))
    = <["clustered-users" := sources w]> (map_sources (the_map w)) ∧
  map_layers (the_map (final o))
    = map_layers (the_map w)
      ++ [clusterLayer; clusterCountLayer; unclusteredPointLayer] ∧
  map_listeners (the_map (final o))
    = map_listeners (the_map w) ++ point_binding cb ++ [cluster_binding].
Proof.
  intros Hun. apply uninstalled_unfold in Hun as (Hsrc & Hids & Hall).
  cbn zeta. rewrite (addClusteredUsersToMap_run cb w Hsrc Hids).
  cbn [returns final]. split; [done|]. split; [by apply installed_added|done].
Qed.

Lemma addClusteredUsersToMap_installs_witness :
  let o := addClusteredUsersToMap (Some (HCallback 7)) world_fresh in
  returns o = true ∧
  installed (the_map (final o)) = true ∧
  map_sources (the_map (final o))
    = <["clustered-users" := sources world_fresh]>
        (map_sources (the_map world_fresh)) ∧
  map_layers (the_map (final o))
    = map_layers (the_map world_fresh)
      ++ [clusterLayer; clusterCountLayer; unclusteredPointLayer] ∧
  map_listeners (the_map (final o))
    = map_listeners (the_map world_fresh)
      ++ point_binding (Some (HCallback 7)) ++ [cluster_binding].
Proof.
  apply (addClusteredUsersToMap_installs (Some (HCallback 7)) world_fresh).
  vm_compute. reflexivity.
Defined.

Lemma addClusteredUsersToMap_existing_source (cb : option Handler) (w : World) :
  is_Some (map_sources (the_map w) !! "clustered-users") →
  addClusteredUsersToMap cb w
  = Throw (EngineError (CAddSource "clustered-users" (sources w)))
      (set_calls (calls w ++ [CAddSource "clustered-users" (sources w)]) w).
Proof.
  intros Hsrc. unfold addClusteredUsersToMap.
  rewrite bind_run. unfold gets at 1. cbn iota.
  rewrite bind_run, map_addSource_run. cbn zeta. unfold has_source.
  by rewrite (bool_decide_eq_true_2 _ Hsrc).
Qed.

(** X2: on a map that already has the source, [addClusteredUsersToMap]
    raises at its first engine call, [addSource], and does nothing else: no
    image load is started, no layer is added, no listener is registered. *)
Theorem addClusteredUsersToMap_twice_raises (cb : option Handler) (w : World) :
  is_Some (map_sources (the_map w) !! "clustered-users") →
  let o := addClusteredUsersToMap cb w in
  returns o = false ∧
  calls_since w (final o) = [CAddSource "clustered-users" (sources w)] ∧
  the_map (final o) = the_map w ∧
  sources (final o) = sources w.
Proof.
  intros Hsrc. cbn zeta. rewrite (addClusteredUsersToMap_existing_source cb w Hsrc).
  cbn [returns final]. split; [done|]. split; [by apply calls_since_app|done].
Qed.

Lemma addClusteredUsersToMap_twice_raises_witness :
  let o := addClusteredUsersToMap None world_installed in
  returns o = false ∧
  calls_since world_installed (final o)
    = [CAddSource "clustered-users" (sources world_installed)] ∧
  the_map (final o) = the_map world_installed ∧
  sources (final o) = sources world_installed.
Proof.
  apply (addClusteredUsersToMap_twice_raises None world_installed).
  vm_compute. eauto.
Defined.

Lemma other_layers_app (ls ls' : list LayerSpec) :
  other_layers (ls ++ ls') = other_layers ls ++ other_layers ls'.
Proof. apply filter_app. Qed.


Lemma not_elem_of_other_layers (id : string) (ls : list LayerSpec) :
  id ∈ cluster_layer_ids → id ∉ layer_id <$> other_layers ls.
Proof.
  intros Hid Hin. apply list_elem_of_fmap in Hin as (l & -> & Hl).
  unfold other_layers in Hl. by apply list_elem_of_filter in Hl as [Hno _].
Qed.

(** X3: install, then uninstall.  On a map that carries nothing of the
    clustered users, lines 184-187 run after [addClusteredUsersToMap]
    return normally and give back the sources and the layers the map had
    before; the listeners stay (that step removes none). *)
Theorem install_then_remove_restores (cb : option Handler) (w : World) :
  uninstalled (the_map w) = true →
  let w1 := final (addClusteredUsersToMap cb w) in
  let o := reRenderUsersOnMap_remove w1 in
  returns o = true ∧
  map_sources (the_map (final o)) = map_sources (the_map w) ∧
  map_layers (the_map (final o)) = map_layers (the_map w) ∧
  uninstalled (the_map (final o)) = true ∧
  map_listeners (the_map (final o)) = map_listeners (the_map w1).
Proof.
  intros Hun. pose proof Hun as Hun'.
  apply uninstalled_unfold in Hun as (Hsrc & Hids & Hall).
  cbn zeta. rewrite (addClusteredUsersToMap_run cb w Hsrc Hids). cbn [final].
  rewrite (reRenderUsersOnMap_remove_run _ (installed_added cb w Hall)).
  cbn [returns final]. unfold removed. world_cbn.
  rewrite other_layers_remove. unfold added at 1 2 3. world_cbn.
  assert (other_layers (map_layers (the_map w)
            ++ [clusterLayer; clusterCountLayer; unclusteredPointLayer])
          = map_layers (the_map w)) as Hls.
  { rewrite other_layers_app, (other_layers_id _ Hids). apply app_nil_r. }
  assert (delete "clustered-users"
            (<["clustered-users" := sources w]> (map_sources (the_map w)))
          = map_sources (the_map w)) as Hms
    by (by rewrite delete_insert_eq, delete_id).
  rewrite Hls, Hms. repeat (split; [done|]). split; [|done].
  unfold uninstalled, has_source, has_layer, layer_ids, added in *.
  world_cbn. by rewrite Hls.
Qed.

Lemma install_then_remove_restores_witness :
  let w1 := final (addClusteredUsersToMap None world_fresh) in
  let o := reRenderUsersOnMap_remove w1 in
  returns o = true ∧
  map_sources (the_map (final o)) = map_sources (the_map world_fresh) ∧
  map_layers (the_map (final o)) = map_layers (the_map world_fresh) ∧
  uninstalled (the_map (final o)) = true ∧
  map_listeners (the_map (final o)) = map_listeners (the_map w1).
Proof.
  apply (install_then_remove_restores None world_fresh).
  vm_compute. reflexivity.
Defined.

(** ** Re-rendering: trace, frame, repetition *)

(** The world [reRenderUsersOnMap] ends in on an installed map, component
    by component. *)
Lemma reRenderUsersOnMap_state (ids : option (list Z)) (cb : option Handler)
    (w : World) :
  installed (the_map w) = true →
  let w' := final (reRenderUsersOnMap ids cb w) in
  sources w' = with_filter (sources w) (filter_for ids) ∧
  map_sources (the_map w')
    = <["clustered-users" := with_filter (sources w) (filter_for ids)]>
        (map_sources (the_map w)) ∧
  map_layers (the_map w')
    = other_layers (map_layers (the_map w))
      ++ [clusterLayer; clusterCountLayer; unclusteredPointLayer] ∧
  map_images (the_map w') = map_images (the_map w) ∧
  map_loading (the_map w') = map_loading (the_map w) ++ pin_load w ∧
  calls w'
    = calls w ++ off_calls cb
      ++ [CRemoveLayer "clusters"; CRemoveLayer "clusters-count";
          CRemoveLayer "unclustered-points"; CRemoveSource "clustered-users"]
      ++ [CAddSource "clustered-users" (with_filter (sources w) (filter_for ids))]
      ++ (CLoadImage <$> pin_load w)
      ++ [CAddLayer clusterLayer; CAddLayer clusterCountLayer;
          CAddLayer unclusteredPointLayer]
      ++ (on_call <$> point_binding cb ++ [cluster_binding]).
Proof.
  intros Hinst. cbn zeta. rewrite (reRenderUsersOnMap_run ids cb w Hinst).
  cbn [final]. rewrite reRenderUsersOnMap_handlers_run.
  destruct w as [s p [srcs ls bs imgs ld qs] u c].
  destruct cb as [h|]; cbn [final]; unfold added, removed, pin_load; world_cbn;
    rewrite other_layers_remove, insert_delete_eq;
    repeat (split; [done|]); cbn [off_calls];
    by rewrite <- ?(assoc_L (++)), ?app_nil_l.
Qed.





Lemma with_filter_with_filter (cfg : SourceConfig) (f f' : option Expr) :
  with_filter (with_filter cfg f) f' = with_filter cfg f'.
Proof. reflexivity. Qed.

Lemma reRenderUsersOnMap_returns (ids : option (list Z)) (cb : option Handler)
    (w : World) :
  installed (the_map w) = true →
  reRenderUsersOnMap ids cb w = Return tt (final (reRenderUsersOnMap ids cb w)).
Proof. intros Hinst. by rewrite (reRenderUsersOnMap_run ids cb w Hinst). Qed.



(** X7: re-rendering again and again without a callback: every call
    returns, and every call leaves one more [zoomCluster] listener on the
    cluster layer, since none is ever removed. *)
Theorem reRenderUsersOnMap_each_without_callback (idss : list (option (list Z)))
    (w : World) :
  installed (the_map w) = true →
  let o := reRenderUsersOnMap_each idss None w in
  returns o = true ∧
  map_listeners (the_map (final o))
    = map_listeners (the_map w) ++ replicate (length idss) cluster_binding.
Proof.
  revert w. induction idss as [|ids idss IH]; intros w Hinst; cbn zeta.
  - cbn. by rewrite app_nil_r.
  - cbn [reRenderUsersOnMap_each]. rewrite bind_run.
    rewrite (reRenderUsersOnMap_returns ids None w Hinst).
    destruct (IH _ (reRenderUsersOnMap_installed ids None w Hinst)) as [Hret Hbs].
    split; [done|]. cbn zeta in Hbs. rewrite Hbs.
    rewrite (reRenderUsersOnMap_without_callback_accumulates ids w Hinst).
    by rewrite <- (assoc_L (++)).
Qed.

Lemma reRenderUsersOnMap_each_without_callback_witness :
  let o := reRenderUsersOnMap_each [None; Some [5]%Z; None] None world_installed in
  returns o = true ∧
  map_listeners (the_map (final o))
    = map_listeners (the_map world_installed) ++ replicate 3 cluster_binding.
Proof.
  apply (reRenderUsersOnMap_each_without_callback [None; Some [5]%Z; None]
           world_installed).
  vm_compute. reflexivity.
Defined.

(** X8: re-rendering with a callback other than the one that is
    registered does not unregister the old one: [off] finds no listener for
    the new callback and stays silent, so afterwards both callbacks listen
    on the point layer. *)
Theorem reRenderUsersOnMap_other_callback_keeps_old (ids : option (list Z))
    (old new : Handler) (w : World) :
  installed (the_map w) = true →
  old ≠ new →
  ("click", "unclustered-points", old) ∈ map_listeners (the_map w) →
  let w' := final (reRenderUsersOnMap ids (Some new) w) in
  ("click", "unclustered-points", old) ∈ map_listeners (the_map w') ∧
  ("click", "unclustered-points", new) ∈ map_listeners (the_map w').
Proof.
  intros Hinst Hne Hold. cbn zeta.
  rewrite (reRenderUsersOnMap_run ids (Some new) w Hinst). cbn [final].
  rewrite reRenderUsersOnMap_handlers_run. cbn [final].
  unfold added, removed. world_cbn. cbn [point_binding app].
  rewrite !elem_of_app. split.
  - left. apply elem_of_remove_first_ne; [done|].
    apply elem_of_remove_first_ne; [congruence|done].
  - right. left.
Qed.

Lemma reRenderUsersOnMap_other_callback_keeps_old_witness :
  let w := final (addClusteredUsersToMap (Some (HCallback 1)) world_fresh) in
  let w' := final (reRenderUsersOnMap None (Some (HCallback 2)) w) in
  ("click", "unclustered-points", HCallback 1) ∈ map_listeners (the_map w') ∧
  ("click", "unclustered-points", HCallback 2) ∈ map_listeners (the_map w').
Proof.
  apply (reRenderUsersOnMap_other_callback_keeps_old None
           (HCallback 1) (HCallback 2)
           (final (addClusteredUsersToMap (Some (HCallback 1)) world_fresh))).
  - vm_compute. reflexivity.
  - discriminate.
  - vm_compute. left.
Defined.

Lemma reRenderUsersOnMap_remove_without_source (w : World) :
  map_sources (the_map w) !! "clustered-users" = None →
  ∃ e w', reRenderUsersOnMap_remove w = Throw e w' ∧
    sources w' = sources w ∧
    map_sources (the_map w') = map_sources (the_map w).
Proof.
  intros Hsrc. destruct w as [s p [srcs ls bs imgs ld qs] u c].
  world_cbn_all. unfold reRenderUsersOnMap_remove.
  assert (∀ m, map_sources m = srcs →
            has_source "clustered-users" m && negb (source_in_use "clustered-users" m)
            = false) as Hcond.
  { intros m Hm. unfold has_source. rewrite Hm, Hsrc.
    by rewrite bool_decide_eq_false_2 by (by intros [? ?]). }
  rewrite bind_run, map_removeLayer_run. cbn zeta. world_cbn.
  destruct (has_layer _ _); [|by eexists _, _].
  rewrite bind_run, map_removeLayer_run. cbn zeta. world_cbn.
  destruct (has_layer _ _); [|by eexists _, _].
  rewrite bind_run, map_removeLayer_run. cbn zeta. world_cbn.
  destruct (has_layer _ _); [|by eexists _, _].
  rewrite map_removeSource_run. cbn zeta. world_cbn.
  rewrite Hcond by done. by eexists _, _.
Qed.

(** X9: on a map without the source, [reRenderUsersOnMap] raises while
    removing, before it reaches the filter: the shared source object keeps
    the filter it had and no source is installed. *)
Theorem reRenderUsersOnMap_without_source_raises (ids : option (list Z))
    (cb : option Handler) (w : World) :
  map_sources (the_map w) !! "clustered-users" = None →
  let o := reRenderUsersOnMap ids cb w in
  returns o = false ∧
  sources (final o) = sources w ∧
  map_sources (the_map (final o)) = map_sources (the_map w).
Proof.
  intros Hsrc. cbn zeta. unfold reRenderUsersOnMap.
  rewrite bind_run, reRenderUsersOnMap_handlers_run.
  set (w0 := match cb with
             | Some h => final (reRenderUsersOnMap_handlers (Some h) w)
             | None => w
             end).
  assert (map_sources (the_map w0) !! "clustered-users" = None
          ∧ sources w0 = sources w
          ∧ map_sources (the_map w0) = map_sources (the_map w)) as (H0 & Hs0 & Hm0).
  { unfold w0. destruct cb; [rewrite reRenderUsersOnMap_handlers_run|]; done. }
  destruct (reRenderUsersOnMap_remove_without_source w0 H0)
    as (e & w' & Hrm & Hs' & Hm').
  assert ((reRenderUsersOnMap_remove
           ≫= λ _, reRenderUsersOnMap_filter ids
           ≫= λ _, addClusteredUsersToMap cb) w0 = Throw e w') as Hrest
    by (by rewrite bind_run, Hrm).
  unfold w0 in *. destruct cb as [h|].
  - rewrite reRenderUsersOnMap_handlers_run in Hrest, Hs', Hm'. cbn [final] in *.
    rewrite Hrest. cbn [returns final]. by rewrite Hs', Hm'.
  - rewrite Hrest. cbn [returns final]. by rewrite Hs', Hm'.
Qed.

Lemma reRenderUsersOnMap_without_source_raises_witness :
  let o := reRenderUsersOnMap (Some [3]%Z) None world_fresh in
  returns o = false ∧
  sources (final o) = sources world_fresh ∧
  map_sources (the_map (final o)) = map_sources (the_map world_fresh).
Proof.
  apply (reRenderUsersOnMap_without_source_raises (Some [3]%Z) None world_fresh).
  reflexivity.
Defined.

(** ** Cluster clicks that go through *)

Lemma zoomCluster_truthy_run (c : Feature) (w : World) :
  truthy (get_prop c "cluster_id") = true →
  zoomCluster (click_on c) w
  = getClusterExpansionZoom (map_sources (the_map w) !! "clustered-users")
      "clustered-users" (get_prop c "cluster_id") c w.
Proof. intros Hv. unfold zoomCluster. cbn. by rewrite Hv. Qed.



(** X11: a click on a cluster when the source is not on the map (a
    [zoomCluster] listener that outlived its source): [getSource] gives
    undefined and the member access raises a TypeError; no query is issued
    and the world is as it was. *)
Theorem zoomCluster_without_source_raises (c : Feature) (w : World) :
  truthy (get_prop c "cluster_id") = true →
  map_sources (the_map w) !! "clustered-users" = None →
  zoomCluster (click_on c) w
  = Throw (TypeError "getClusterExpansionZoom of undefined") w.
Proof. intros Hv Hsrc. by rewrite (zoomCluster_truthy_run c w Hv), Hsrc. Qed.

Lemma zoomCluster_without_source_raises_witness :
  zoomCluster (click_on (feature_at (4, 52)%Z [("cluster_id", JsNumber 5)]))
    world_fresh
  = Throw (TypeError "getClusterExpansionZoom of undefined") world_fresh.
Proof.
  apply (zoomCluster_without_source_raises
           (feature_at (4, 52)%Z [("cluster_id", JsNumber 5)]) world_fresh);
    reflexivity.
Defined.

(** ** More on the Result Extractor *)

(** X12: pages that arrive later only append: the ids of two runs of
    pages put together are the ids of the first run followed by the ids of
    the second; in particular no pages give no ids. *)
Theorem filterData_app (ps ps' : list UserSearchRes) :
  filterData {| pages := ps ++ ps' |}
  = filterData {| pages := ps |} ++ filterData {| pages := ps' |}.
Proof.
  unfold filterData. cbn [pages].
  by rewrite bind_app, fmap_app, filter_defined_app, fmap_app.
Qed.

Lemma elem_of_filter_defined {A : Type} (x : A) (xs : list (option A)) :
  x ∈ filter_defined xs ↔ Some x ∈ xs.
Proof.
  unfold filter_defined. rewrite list_elem_of_omap. split.
  - by intros (y & Hy & ->).
  - intros Hx. by exists (Some x).
Qed.

Lemma elem_of_all_results (data : InfiniteData) (r : Result) :
  r ∈ all_results data ↔ ∃ page, page ∈ pages data ∧ r ∈ resultsList page.
Proof.
  unfold all_results. rewrite list_elem_of_bind.
  split; intros (page & ? & ?); by exists page.
Qed.

Lemma elem_of_filterData_results (data : InfiniteData) (n : Z) :
  n ∈ filterData data
  ↔ ∃ r u, r ∈ all_results data ∧ user r = Some u ∧ userId u = n.
Proof.
  unfold filterData. fold (all_results data). rewrite list_elem_of_fmap. split.
  - intros (u & -> & Hu). apply elem_of_filter_defined in Hu.
    apply list_elem_of_fmap in Hu as (r & Hr & Hin). by exists r, u.
  - intros (r & u & Hin & Hu & <-). exists u. split; [done|].
    apply elem_of_filter_defined, list_elem_of_fmap. by exists r.
Qed.

(** X13: the ids [filterData] returns are exactly the ids of the users of
    the results: nothing is invented, and no result that has a user is
    left out. *)
Theorem filterData_elem_of (data : InfiniteData) (n : Z) :
  n ∈ filterData data ↔ is_result_user data n.
Proof.
  rewrite elem_of_filterData_results. unfold is_result_user. split.
  - intros (r & u & Hin & Hu & Hn).
    apply elem_of_all_results in Hin as (page & Hp & Hr). by exists page, r, u.
  - intros (page & r & u & Hp & Hr & Hu & Hn). exists r, u.
    split; [|done]. apply elem_of_all_results. by exists page.
Qed.

Lemma length_filter_defined {A : Type} (xs : list (option A)) :
  length (filter_defined xs) + length (filter (λ x, x = None) xs) = length xs.
Proof.
  induction xs as [|[a|] xs IH]; [done| |].
  - rewrite filter_defined_cons, filter_cons_False by done. cbn. lia.
  - rewrite filter_defined_cons, filter_cons_True by done. cbn. lia.
Qed.

(** X14: every result gives one id or none: the number of ids plus the
    number of results without user is the number of results, so there are
    never more ids than results, and as many exactly when every result has
    its user. *)
Theorem filterData_length (data : InfiniteData) :
  length (filterData data)
    + length (filter (λ r, user r = None) (all_results data))
  = length (all_results data).
Proof.
  unfold filterData, all_results. rewrite length_fmap.
  rewrite <- (length_fmap user (pages data ≫= resultsList)).
  rewrite <- (length_filter_defined (user <$> (pages data ≫= resultsList))).
  f_equal. generalize (pages data ≫= resultsList). intros rs.
  induction rs as [|r rs IH]; [done|]. rewrite fmap_cons.
  destruct (user r) as [u|] eqn:Hu.
  - rewrite !filter_cons_False by (by rewrite ?Hu). done.
  - rewrite !filter_cons_True by (by rewrite ?Hu). cbn. by rewrite IH.
Qed.

(** X15: search results to map.  On an installed map,
    [reRenderUsersOnMap] called with the ids [filterData] extracts installs
    a filter that a feature passes exactly when its [id] is the id of the
    user of some result; with results that have no user at all, the filter
    is there all the same and no feature passes it. *)
Theorem reRenderUsersOnMap_of_filterData (data : InfiniteData)
    (cb : option Handler) (w : World) :
  installed (the_map w) = true →
  let o := reRenderUsersOnMap (Some (filterData data)) cb w in
  returns o = true ∧
  ∃ f, (source_filter <$> map_sources (the_map (final o)) !! "clustered-users")
         = Some (Some f) ∧
       (∀ ps, feature_passes f ps = true
              ↔ ∃ n, ps !! "id" = Some (JsNumber n) ∧ is_result_user data n) ∧
       (filterData data = [] → ∀ ps, feature_passes f ps = false).
Proof.
  intros Hinst. cbn zeta.
  destruct (after_reRenderUsersOnMap (Some (filterData data)) cb w Hinst)
    as (Hret & Hs & Hms).
  cbn zeta in *. split; [done|].
  exists (EIn (EGet "id") (ELiteral (filterData data))).
  split; [by rewrite Hms, Hs|]. split.
  - intros ps. rewrite feature_passes_in.
    setoid_rewrite elem_of_filterData_results. unfold is_result_user. split.
    + intros (n & Hn & r & u & Hin & Hu & Hid). exists n. split; [done|].
      apply elem_of_all_results in Hin as (page & Hp & Hr). by exists page, r, u.
    + intros (n & Hn & page & r & u & Hp & Hr & Hu & Hid). exists n.
      split; [done|]. exists r, u. split; [|done].
      apply elem_of_all_results. by exists page.
  - intros Hnil ps. rewrite Hnil.
    destruct (feature_passes _ ps) eqn:Hp; [|done].
    apply feature_passes_in in Hp as (n & _ & Hin). by apply elem_of_nil in Hin.
Qed.

Lemma reRenderUsersOnMap_of_filterData_witness :
  let data := {| pages := [ {| resultsList := [result_for 7; result_no_user] |} ] |} in
  let o := reRenderUsersOnMap (Some (filterData data)) None world_installed in
  returns o = true ∧
  ∃ f, (source_filter <$> map_sources (the_map (final o)) !! "clustered-users")
         = Some (Some f) ∧
       (∀ ps, feature_passes f ps = true
              ↔ ∃ n, ps !! "id" = Some (JsNumber n) ∧ is_result_user data n) ∧
       (filterData data = [] → ∀ ps, feature_passes f ps = false).
Proof.
  apply (reRenderUsersOnMap_of_filterData
           {| pages := [ {| resultsList := [result_for 7; result_no_user] |} ] |}
           None world_installed).
  vm_compute. reflexivity.
Defined.

(** ** Icon Registrar over time *)

Lemma icon_event_uncaught (ev : IconEvent) (w : World) :
  ∃ es, uncaught (icon_event ev w) = uncaught w ++ es ∧
        ∀ e, e ∈ es → ev = Completed (Some e).
Proof.
  destruct ev as [|o]; cbn [icon_event].
  - unfold run_task. rewrite addPinImages_run. exists []. split.
    + by rewrite app_nil_r.
    + intros e He. by apply elem_of_nil in He.
  - destruct (map_loading (the_map w)) as [|src rest] eqn:Hld.
    + unfold image_loaded. rewrite Hld. exists []. split.
      * by rewrite app_nil_r.
      * intros e He. by apply elem_of_nil in He.
    + destruct (image_loaded_step o w src rest Hld) as (_ & Hunc & _).
      exists (filter_defined [o]). split; [done|].
      intros e He. apply elem_of_filter_defined in He.
      apply list_elem_of_singleton in He. by subst.
Qed.

(** X16: the Icon Registrar over any course of events.  However
    invocations of [addPinImages] and completions of loads follow one
    another, [addImage] is issued at most once, and never when the icon
    was registered to begin with; and every error that surfaces is one
    that a load reported: the registrar itself never makes the engine
    reject a registration. *)
Theorem icon_events_safe (evs : list IconEvent) (w : World) :
  let w' := icon_events evs w in
  count_addImage (calls_since w w') ≤ (if pin_registered w then 0 else 1) ∧
  ∃ es, uncaught w' = uncaught w ++ es ∧
        Forall (λ e, Completed (Some e) ∈ evs) es.
Proof.
  cbn zeta. destruct (icon_events_register_once evs w) as (cs & Hcs & Hn & _).
  rewrite (calls_since_app _ _ _ Hcs), Hn. split.
  - destruct (pin_registered w); [done|]. destruct (negb _ && _); lia.
  - setoid_rewrite Forall_forall. clear. revert w. induction evs as [|ev evs IH]; intros w.
    + exists []. split; [by rewrite app_nil_r|].
      intros e He. by apply elem_of_nil in He.
    + cbn [icon_events foldl]. fold (icon_events evs (icon_event ev w)).
      destruct (icon_event_uncaught ev w) as (es1 & Hu1 & He1).
      destruct (IH (icon_event ev w)) as (es2 & Hu2 & He2).
      exists (es1 ++ es2). split; [by rewrite Hu2, Hu1, (assoc_L (++))|].
      intros e [He|He]%elem_of_app.
      * rewrite (He1 e He). left.
      * right. by apply He2.
Qed.

(** ** What the module never does *)

Lemma within_refl (w : World) : within w w.
Proof.
  split; [split; [done|]|].
  - unfold filter_from. by rewrite bool_decide_eq_true_2.
  - split; [done|]. exists []. by rewrite app_nil_r.
Qed.

Lemma keeps_within_ret {A : Type} (a : A) : keeps_within (mret a).
Proof. by intros w0 w Hw. Qed.

Lemma keeps_within_bind {A B : Type} (m : M A) (f : A → M B) :
  keeps_within m → (∀ a, keeps_within (f a)) → keeps_within (m ≫= f).
Proof.
  intros Hm Hf w0 w Hw. rewrite bind_run. specialize (Hm w0 w Hw).
  destruct (m w) as [a w1|e w1]; [by apply Hf|done].
Qed.

(** An engine method that logs call [c] and then changes the map only. *)
Lemma within_logged (w0 w w' : World) (c : Call) :
  within w0 w →
  module_call (sources w0) (userPin_src w0) c = true →
  sources w' = sources w → userPin_src w' = userPin_src w →
  calls w' = calls w ++ [c] →
  within w0 w'.
Proof.
  intros (Hs & Hp & cs & Hcs & Hok) Hc Hs' Hp' Hc'.
  split; [by rewrite Hs'|]. split; [by rewrite Hp'|].
  exists (cs ++ [c]). split; [by rewrite Hc', Hcs, (assoc_L (++))|].
  apply Forall_app. split; [done|]. by apply Forall_singleton.
Qed.

Lemma keeps_within_addSource (w0 w : World) :
  within w0 w →
  within w0 (final (map_addSource "clustered-users" (sources w) w)).
Proof.
  intros Hw. rewrite map_addSource_run. cbn zeta.
  apply (within_logged w0 w _ (CAddSource "clustered-users" (sources w)) Hw).
  - destruct Hw as ((Hs & Hf) & _). apply andb_true_iff. split; [|done].
    by apply bool_decide_eq_true.
  - by destruct (has_source _ _).
  - by destruct (has_source _ _).
  - by destruct (has_source _ _).
Qed.

Lemma keeps_within_removeSource : keeps_within (map_removeSource "clustered-users").
Proof.
  intros w0 w Hw. rewrite map_removeSource_run. cbn zeta.
  apply (within_logged w0 w _ (CRemoveSource "clustered-users") Hw);
    [done|by destruct (_ && _)..].
Qed.

Lemma keeps_within_addLayer (l : LayerSpec) :
  l ∈ [clusterLayer; clusterCountLayer; unclusteredPointLayer] →
  keeps_within (map_addLayer l).
Proof.
  intros Hl w0 w Hw. rewrite map_addLayer_run. cbn zeta.
  apply (within_logged w0 w _ (CAddLayer l) Hw);
    [by apply bool_decide_eq_true|by destruct (_ && _)..].
Qed.

Lemma keeps_within_removeLayer (id : string) :
  id ∈ cluster_layer_ids → keeps_within (map_removeLayer id).
Proof.
  intros Hid w0 w Hw. rewrite map_removeLayer_run. cbn zeta.
  apply (within_logged w0 w _ (CRemoveLayer id) Hw);
    [by apply bool_decide_eq_true|by destruct (has_layer _ _)..].
Qed.

Lemma keeps_within_on (layer : string) (h : Handler) :
  layer ∈ ["unclustered-points"; "clusters"] →
  keeps_within (map_on "click" layer h).
Proof.
  intros Hl w0 w Hw. rewrite map_on_run.
  by apply (within_logged w0 w _ (COn "click" layer h) Hw);
    [apply bool_decide_eq_true|..].
Qed.

Lemma keeps_within_off (layer : string) (h : Handler) :
  layer ∈ ["unclustered-points"; "clusters"] →
  keeps_within (map_off "click" layer h).
Proof.
  intros Hl w0 w Hw. rewrite map_off_run.
  by apply (within_logged w0 w _ (COff "click" layer h) Hw);
    [apply bool_decide_eq_true|..].
Qed.

Lemma keeps_within_addPinImages : keeps_within addPinImages.
Proof.
  intros w0 w Hw. rewrite addPinImages_run. cbn [final]. unfold pin_load.
  destruct (bool_decide _).
  - destruct Hw as (Hs & Hp & cs & Hcs & Hok).
    split; [done|]. split; [done|]. exists cs. split; [|done].
    world_cbn. cbn [fmap list_fmap]. by rewrite app_nil_r.
  - apply (within_logged w0 w _ (CLoadImage (userPin_src w)) Hw); try done.
    apply bool_decide_eq_true. by destruct Hw as (_ & -> & _).
Qed.

Lemma keeps_within_addPinImages_loaded (error : option Error) :
  keeps_within (addPinImages_loaded error).
Proof.
  intros w0 w Hw. destruct error as [e|]; [done|].
  unfold addPinImages_loaded. rewrite bind_run. unfold map_hasImage, gets.
  destruct (bool_decide _); [done|].
  unfold map_addImage, mbind, M_bind, log, modify, gets. world_cbn.
  apply (within_logged w0 w _ (CAddImage "user-pin" true) Hw);
    [done|by destruct (bool_decide _)..].
Qed.

Lemma keeps_within_zoomCluster (ev : MapMouseEvent) : keeps_within (zoomCluster ev).
Proof.
  intros w0 w Hw. unfold zoomCluster.
  destruct (first_feature ev) as [c|]; [|done].
  destruct (negb _); [done|]. rewrite bind_run. unfold map_getSource, gets.
  destruct (map_sources (the_map w) !! "clustered-users"); [|done].
  by apply (within_logged w0 w _
    (CGetClusterExpansionZoom "clustered-users" (get_prop c "cluster_id")) Hw).
Qed.

Lemma keeps_within_zoomCluster_answered (c : Feature) (error : option Error)
    (zoom : JsValue) :
  keeps_within (zoomCluster_answered c error zoom).
Proof.
  intros w0 w Hw.
  by apply (within_logged w0 w _ (CFlyTo (coordinates (geometry c)) zoom) Hw).
Qed.

Lemma keeps_within_addClusteredUsersToMap (cb : option Handler) :
  keeps_within (addClusteredUsersToMap cb).
Proof.
  intros w0 w Hw. unfold addClusteredUsersToMap. rewrite bind_run.
  unfold gets at 1. cbn iota. rewrite bind_run.
  pose proof (keeps_within_addSource w0 w Hw) as H1.
  destruct (map_addSource _ _ w) as [[] w1|e w1]; [|done]. cbn [final] in H1.
  clear Hw w. revert w0 w1 H1. change (keeps_within
    (addPinImages;; map_addLayer clusterLayer;; map_addLayer clusterCountLayer;;
     map_addLayer unclusteredPointLayer;; addClusteredUsersToMap_handlers cb)).
  apply keeps_within_bind; [apply keeps_within_addPinImages|intros _].
  repeat (apply keeps_within_bind;
          [apply keeps_within_addLayer; repeat constructor|intros _]).
  unfold addClusteredUsersToMap_handlers.
  apply keeps_within_bind; [|intros _; apply keeps_within_on; repeat constructor].
  destruct cb; [apply keeps_within_on; repeat constructor|apply keeps_within_ret].
Qed.

Lemma keeps_within_reRenderUsersOnMap (ids : option (list Z)) (cb : option Handler) :
  keeps_within (reRenderUsersOnMap ids cb).
Proof.
  unfold reRenderUsersOnMap.
  apply keeps_within_bind; [|intros _; apply keeps_within_bind;
    [|intros _; apply keeps_within_bind;
      [|intros _; apply keeps_within_addClusteredUsersToMap]]].
  - destruct cb; [|apply keeps_within_ret].
    apply keeps_within_bind; [|intros _]; apply keeps_within_off; repeat constructor.
  - unfold reRenderUsersOnMap_remove.
    repeat (apply keeps_within_bind;
            [apply keeps_within_removeLayer; repeat constructor|intros _]).
    apply keeps_within_removeSource.
  - intros w0 w ((Hs & Hf) & Hp & Hcs). rewrite reRenderUsersOnMap_filter_run.
    split; [split; [done|]|done]. cbn [final]. world_cbn. cbn [source_filter with_filter].
    unfold filter_from. destruct ids; cbn; apply orb_true_r.
Qed.

Lemma within_run_task (m : M unit) (w0 w : World) :
  keeps_within m → within w0 w → within w0 (run_task m w).
Proof.
  intros Hm Hw. specialize (Hm w0 w Hw). unfold run_task.
  by destruct (m w).
Qed.

Lemma within_module_event (e : ModuleEvent) (w0 w : World) :
  within w0 w → within w0 (module_event e w).
Proof.
  intros Hw. destruct e as [cb|ids cb|ev|error|error zoom]; cbn [module_event].
  - by apply within_run_task; [apply keeps_within_addClusteredUsersToMap|].
  - by apply within_run_task; [apply keeps_within_reRenderUsersOnMap|].
  - by apply within_run_task; [apply keeps_within_zoomCluster|].
  - unfold image_loaded. destruct (map_loading _); [done|].
    by apply within_run_task; [apply keeps_within_addPinImages_loaded|].
  - unfold expansion_zoom_answered. destruct (map_queries _); [done|].
    by apply within_run_task; [apply keeps_within_zoomCluster_answered|].
Qed.

Lemma within_module_events (es : list ModuleEvent) (w0 w : World) :
  within w0 w → within w0 (module_events es w).
Proof.
  revert w. induction es as [|e es IH]; intros w Hw; [done|].
  cbn [module_events foldl]. apply IH. by apply within_module_event.
Qed.

(** X17: whatever happens to the module, in whatever order, and whether
    its functions return or raise: of the shared source object only the
    filter ever changes, and it is the filter the object started with or
    a membership test on [id]; the only source named in a call is
    [clustered-users], added as the shared object with such a filter; the
    only layers added or removed are the module's three; listeners are
    registered and removed for clicks on the point and cluster layers
    only; the only image loaded or registered is the icon, as [user-pin]
    with the sdf flag. *)
Theorem module_events_within (es : list ModuleEvent) (w : World) :
  let w' := module_events es w in
  with_filter (sources w') None = with_filter (sources w) None ∧
  filter_from (sources w) (source_filter (sources w')) = true ∧
  userPin_src w' = userPin_src w ∧
  Forall (λ c, module_call (sources w) (userPin_src w) c = true)
    (calls_since w w').
Proof.
  cbn zeta.
  destruct (within_module_events es w w (within_refl w))
    as ((Hs & Hf) & Hp & cs & Hcs & Hok).
  by rewrite (calls_since_app _ _ _ Hcs).
Qed.

Lemma with_filter_eta (cfg base : SourceConfig) :
  with_filter cfg None = with_filter base None →
  cfg = with_filter base (source_filter cfg).
Proof. destruct cfg, base. cbn. by intros [= -> -> -> -> -> ->]. Qed.

Lemma filter_from_initial (URL : string) (f : option Expr) :
  filter_from (sources_initial URL) f = true → is_id_filter f = true.
Proof.
  unfold filter_from. cbn [source_filter sources_initial].
  intros [Hf|Hf]%orb_true_iff; [|done].
  by apply bool_decide_eq_true in Hf as ->.
Qed.

(** X18: from the moment the module is loaded, whatever happens: the
    shared source object is the initial one but for its filter, which is
    absent or a membership test on [id]; and every source the module ever
    asks the engine to add clusters the data of [URL/geojson/users], is
    keyed by the promoted property [id], and is filtered on that same
    property or not at all. *)
Theorem module_events_from_initial (URL pin : string) (es : list ModuleEvent) :
  let w' := module_events es (initial_world URL pin) in
  sources w' = with_filter (sources_initial URL) (source_filter (sources w')) ∧
  is_id_filter (source_filter (sources w')) = true ∧
  ∀ id cfg, CAddSource id cfg ∈ calls w' →
    id = "clustered-users" ∧
    cfg = with_filter (sources_initial URL) (source_filter cfg) ∧
    promoteId cfg = "id" ∧
    is_id_filter (source_filter cfg) = true.
Proof.
  cbn zeta.
  destruct (within_module_events es _ _ (within_refl (initial_world URL pin)))
    as ((Hs & Hf) & _ & cs & Hcs & Hok).
  cbn [sources initial_world calls userPin_src app] in *.
  split; [by apply with_filter_eta|]. split; [by apply (filter_from_initial URL)|].
  intros id cfg Hin. rewrite Hcs in Hin. rewrite Forall_forall in Hok.
  apply Hok in Hin. cbn [module_call] in Hin.
  apply andb_true_iff in Hin as [[-> Hcfg]%bool_decide_eq_true Hfc].
  split; [done|]. apply with_filter_eta in Hcfg.
  split; [done|]. split; [by rewrite Hcfg|].
  by apply (filter_from_initial URL).
Qed.

(** ** Re-rendering with the registered callback *)

(** X19: re-rendering again and again with the callback that is
    registered leaks nothing: every call returns, and the listeners are,
    up to order, the ones from before. *)
Theorem reRenderUsersOnMap_each_with_callback (idss : list (option (list Z)))
    (h : Handler) (w : World) :
  installed (the_map w) = true →
  ("click", "unclustered-points", h) ∈ map_listeners (the_map w) →
  cluster_binding ∈ map_listeners (the_map w) →
  let o := reRenderUsersOnMap_each idss (Some h) w in
  returns o = true ∧
  map_listeners (the_map (final o)) ≡ₚ map_listeners (the_map w).
Proof.
  revert w. induction idss as [|ids idss IH]; intros w Hinst H1 H2; cbn zeta.
  - done.
  - cbn [reRenderUsersOnMap_each]. rewrite bind_run.
    rewrite (reRenderUsersOnMap_returns ids (Some h) w Hinst).
    pose proof (reRenderUsersOnMap_with_callback_listeners ids h w Hinst H1 H2)
      as Hperm.
    destruct (IH _ (reRenderUsersOnMap_installed ids (Some h) w Hinst))
      as [Hret Hbs]; [by rewrite Hperm..|].
    split; [done|]. cbn zeta in Hbs. by rewrite Hbs.
Qed.

Lemma reRenderUsersOnMap_each_with_callback_witness :
  let w := final (addClusteredUsersToMap (Some (HCallback 1)) world_fresh) in
  let o := reRenderUsersOnMap_each [Some [2]%Z; None] (Some (HCallback 1)) w in
  returns o = true ∧
  map_listeners (the_map (final o)) ≡ₚ map_listeners (the_map w).
Proof.
  apply (reRenderUsersOnMap_each_with_callback [Some [2]%Z; None] (HCallback 1)
           (final (addClusteredUsersToMap (Some (HCallback 1)) world_fresh))).
  - vm_compute. reflexivity.
  - vm_compute. left.
  - vm_compute. right. left.
Defined.

(** ** The request button of the profile overview *)

Lemma request_events_snoc (es : list RequestEvent) (e : RequestEvent)
    (st : RequestState) :
  request_events (es ++ [e]) st = request_event e (request_events es st).
Proof. unfold request_events. by rewrite foldl_app. Qed.

(** What a series of clicks and closings can have done. *)
Lemma request_events_spec (es : list RequestEvent)
    (st : RequestState) :
  let st' := request_events es st in
  (isRequesting st' = true →
   isRequesting st = true ∨
   ∃ a, RequestClicked (Some a) ∈ es ∧ profileComplete a = true) ∧
  (showCantRequestDialog st' = true →
   (showCantRequestDialog st = true ∧ DialogClosed ∉ es) ∨
   ∃ es1 accountInfo es2,
     es = es1 ++ RequestClicked accountInfo :: es2 ∧
     default false (profileComplete <$> accountInfo) = false ∧
     DialogClosed ∉ es2).
Proof.
  cbn zeta. induction es as [|e es IH] using rev_ind.
  - split; [by left|]. intros Hd. left. split; [done|]. apply not_elem_of_nil.
  - rewrite request_events_snoc. destruct IH as [IHr IHd].
    set (st1 := request_events es st) in *.
    destruct e as [accountInfo|]; cbn [request_event].
    + unfold requestButton.
      destruct (default false (profileComplete <$> accountInfo)) eqn:Hpc;
        cbn [negb isRequesting showCantRequestDialog].
      * split.
        -- intros _. right. destruct accountInfo as [a|]; [|done].
           exists a. split; [|done]. apply elem_of_app. right. left.
        -- intros Hd. destruct (IHd Hd) as [[H0 Hno]|(es1 & ai & es2 & -> & Hai & Hno)].
           ++ left. split; [done|]. rewrite elem_of_app.
              intros [?|Hin]; [done|]. by apply list_elem_of_singleton in Hin.
           ++ right. exists es1, ai, (es2 ++ [RequestClicked accountInfo]).
              split; [by rewrite <- (assoc_L (++))|]. split; [done|].
              rewrite elem_of_app. intros [?|Hin]; [done|].
              by apply list_elem_of_singleton in Hin.
      * split.
        -- intros Hr. destruct (IHr Hr) as [?|(a & Hin & Ha)]; [by left|].
           right. exists a. split; [|done]. apply elem_of_app. by left.
        -- intros _. right. exists es, accountInfo, []. split; [done|].
           split; [done|]. apply not_elem_of_nil.
    + cbn [closeCantRequestDialog isRequesting showCantRequestDialog]. split; [|done].
      intros Hr. destruct (IHr Hr) as [?|(a & Hin & Ha)]; [by left|].
      right. exists a. split; [|done]. apply elem_of_app. by left.
Qed.

(** X20: over any series of clicks on the request button and closings of
    the dialog, a request is started only by a click made when the account
    info was there and said the profile is complete. *)
Theorem request_needs_complete_profile (es : list RequestEvent)
    (st : RequestState) :
  isRequesting st = false →
  isRequesting (request_events es st) = true →
  ∃ a, RequestClicked (Some a) ∈ es ∧ profileComplete a = true.
Proof.
  intros H0 Hr. destruct (request_events_spec es st) as [Hspec _].
  destruct (Hspec Hr) as [H1|?]; [congruence|done].
Qed.

Lemma request_needs_complete_profile_witness :
  ∃ a, RequestClicked (Some a)
         ∈ [RequestClicked None; DialogClosed;
            RequestClicked (Some {| profileComplete := true |})]
       ∧ profileComplete a = true.
Proof.
  apply (request_needs_complete_profile
           [RequestClicked None; DialogClosed;
            RequestClicked (Some {| profileComplete := true |})]
           {| showCantRequestDialog := false; isRequesting := false |});
    reflexivity.
Defined.

(** X21: the dialog is open only because of a click made when the account
    info was missing or said the profile is incomplete, with no closing
    since. *)
Theorem cant_request_dialog_open (es : list RequestEvent) (st : RequestState) :
  showCantRequestDialog st = false →
  showCantRequestDialog (request_events es st) = true →
  ∃ es1 accountInfo es2,
    es = es1 ++ RequestClicked accountInfo :: es2 ∧
    default false (profileComplete <$> accountInfo) = false ∧
    DialogClosed ∉ es2.
Proof.
  intros H0 Hd. destruct (request_events_spec es st) as [_ Hspec].
  destruct (Hspec Hd) as [[H1 _]|?]; [congruence|done].
Qed.

Lemma cant_request_dialog_open_witness :
  ∃ es1 accountInfo es2,
    [DialogClosed; RequestClicked (Some {| profileComplete := false |})]
      = es1 ++ RequestClicked accountInfo :: es2 ∧
    default false (profileComplete <$> accountInfo) = false ∧
    DialogClosed ∉ es2.
Proof.
  apply (cant_request_dialog_open
           [DialogClosed; RequestClicked (Some {| profileComplete := false |})]
           {| showCantRequestDialog := false; isRequesting := false |});
    reflexivity.
Defined.

(** ** Loads started by repeated re-rendering *)

(** X22: while the icon is not registered, every [reRenderUsersOnMap]
    starts one more load of the same image: after a series of calls there
    are as many more loads in flight as there were calls, and still no
    icon. *)
Theorem reRenderUsersOnMap_each_loads (idss : list (option (list Z)))
    (cb : option Handler) (w : World) :
  installed (the_map w) = true →
  pin_registered w = false →
  let o := reRenderUsersOnMap_each idss cb w in
  returns o = true ∧
  map_loading (the_map (final o))
    = map_loading (the_map w) ++ replicate (length idss) (userPin_src w) ∧
  map_images (the_map (final o)) = map_images (the_map w).
Proof.
  revert w. induction idss as [|ids idss IH]; intros w Hinst Hreg; cbn zeta.
  - cbn. by rewrite app_nil_r.
  - cbn [reRenderUsersOnMap_each]. rewrite bind_run.
    rewrite (reRenderUsersOnMap_returns ids cb w Hinst).
    destruct (reRenderUsersOnMap_state ids cb w Hinst)
      as (_ & _ & _ & Himg & Hld & _).
    set (w1 := final (reRenderUsersOnMap ids cb w)) in *.
    assert (userPin_src w1 = userPin_src w) as Hpin.
    { unfold w1. rewrite (reRenderUsersOnMap_run ids cb w Hinst). cbn [final].
      rewrite reRenderUsersOnMap_handlers_run. by destruct cb. }
    assert (pin_registered w1 = false) as Hreg1
      by (unfold pin_registered in *; by rewrite Himg).
    destruct (IH w1 (reRenderUsersOnMap_installed ids cb w Hinst) Hreg1)
      as (Hret & Hld' & Himg').
    cbn zeta in *. split; [done|]. rewrite Hld', Himg', Hld, Himg, Hpin.
    split; [|done]. unfold pin_load. unfold pin_registered in Hreg.
    rewrite Hreg. by rewrite <- (assoc_L (++)).
Qed.

Lemma reRenderUsersOnMap_each_loads_witness :
  let o := reRenderUsersOnMap_each [None; Some [4]%Z] None world_installed in
  returns o = true ∧
  map_loading (the_map (final o))
    = map_loading (the_map world_installed)
      ++ replicate 2 (userPin_src world_installed) ∧
  map_images (the_map (final o)) = map_images (the_map world_installed).
Proof.
  apply (reRenderUsersOnMap_each_loads [None; Some [4]%Z] None world_installed);
    reflexivity.
Defined.

(** ** The map is never left half installed *)

(** [installed] and [uninstalled] look at the sources and the layers only. *)
Lemma install_state_same (m m' : Map) :
  map_sources m' = map_sources m → map_layers m' = map_layers m →
  installed m' = installed m ∧ uninstalled m' = uninstalled m.
Proof.
  intros Hs Hl. unfold installed, uninstalled, has_source, has_layer, layer_ids.
  by rewrite Hs, Hl.
Qed.

Lemma run_task_map (m : M unit) (w : World) :
  the_map (run_task m w) = the_map (final (m w)).
Proof. unfold run_task. by destruct (m w). Qed.

Lemma zoomCluster_install_state (ev : MapMouseEvent) (w : World) :
  map_sources (the_map (final (zoomCluster ev w))) = map_sources (the_map w) ∧
  map_layers (the_map (final (zoomCluster ev w))) = map_layers (the_map w).
Proof.
  unfold zoomCluster. destruct (first_feature ev) as [c|]; [|done].
  destruct (negb _); [done|]. rewrite bind_run. unfold map_getSource, gets.
  by destruct (map_sources (the_map w) !! "clustered-users").
Qed.

Lemma image_loaded_install_state (error : option Error) (w : World) :
  map_sources (the_map (image_loaded error w)) = map_sources (the_map w) ∧
  map_layers (the_map (image_loaded error w)) = map_layers (the_map w).
Proof.
  unfold image_loaded. destruct (map_loading (the_map w)); [done|].
  rewrite run_task_map. destruct error as [e|]; [done|].
  unfold addPinImages_loaded. rewrite bind_run. unfold map_hasImage, gets.
  destruct (bool_decide _); [done|].
  unfold map_addImage, mbind, M_bind, log, modify, gets. world_cbn.
  by destruct (bool_decide _).
Qed.

Lemma expansion_zoom_answered_install_state (error : option Error)
    (zoom : JsValue) (w : World) :
  map_sources (the_map (expansion_zoom_answered error zoom w))
    = map_sources (the_map w) ∧
  map_layers (the_map (expansion_zoom_answered error zoom w))
    = map_layers (the_map w).
Proof.
  unfold expansion_zoom_answered. by destruct (map_queries (the_map w)).
Qed.

(** On a map that carries nothing of the clustered users,
    [reRenderUsersOnMap] raises at its first [removeLayer]. *)
Lemma reRenderUsersOnMap_uninstalled (ids : option (list Z))
    (cb : option Handler) (w : World) :
  uninstalled (the_map w) = true →
  returns (reRenderUsersOnMap ids cb w) = false ∧
  map_sources (the_map (final (reRenderUsersOnMap ids cb w)))
    = map_sources (the_map w) ∧
  map_layers (the_map (final (reRenderUsersOnMap ids cb w)))
    = map_layers (the_map w).
Proof.
  intros Hun. apply uninstalled_unfold in Hun as (_ & Hids & _).
  assert ("clusters" ∉ layer_id <$> map_layers (the_map w)) as Hno
    by (apply Hids; unfold cluster_layer_ids; world_cbn; repeat constructor).
  unfold reRenderUsersOnMap. rewrite bind_run, reRenderUsersOnMap_handlers_run.
  unfold reRenderUsersOnMap_remove.
  destruct cb as [h|]; rewrite !bind_run, map_removeLayer_run; cbn zeta;
    unfold has_layer, layer_ids; world_cbn;
    by rewrite (bool_decide_eq_false_2 _ Hno).
Qed.

Lemma module_event_install_state (e : ModuleEvent) (w : World) :
  (installed (the_map w) = true →
   installed (the_map (module_event e w)) = true) ∧
  (uninstalled (the_map w) = true →
   settled (the_map (module_event e w)) = true).
Proof.
  assert (∀ w', map_sources (the_map w') = map_sources (the_map w) →
                map_layers (the_map w') = map_layers (the_map w) →
            (installed (the_map w) = true → installed (the_map w') = true) ∧
            (uninstalled (the_map w) = true → settled (the_map w') = true))
    as Hsame.
  { intros w' Hs Hl. destruct (install_state_same _ _ Hs Hl) as [Hi Hu].
    unfold settled. rewrite Hi, Hu. split; [done|]. by intros ->. }
  destruct e as [cb|ids cb|ev|error|error zoom]; cbn [module_event];
    rewrite ?run_task_map.
  - split.
    + intros Hinst. pose proof Hinst as Hsrc.
      apply installed_unfold in Hsrc as (Hsrc & _).
      by rewrite (addClusteredUsersToMap_existing_source cb w Hsrc).
    + intros Hun. unfold settled. apply orb_true_iff. right.
      apply uninstalled_unfold in Hun as (Hsrc & Hids & Hall).
      rewrite (addClusteredUsersToMap_run cb w Hsrc Hids).
      by apply installed_added.
  - split.
    + apply reRenderUsersOnMap_installed.
    + intros Hun.
      destruct (reRenderUsersOnMap_uninstalled ids cb w Hun) as (_ & Hs & Hl).
      by apply (Hsame _ Hs Hl).
  - destruct (zoomCluster_install_state ev w) as [Hs Hl]. by apply Hsame.
  - destruct (image_loaded_install_state error w) as [Hs Hl]. by apply Hsame.
  - destruct (expansion_zoom_answered_install_state error zoom w) as [Hs Hl].
    by apply Hsame.
Qed.

(** X23: once the users are on the map they stay on it, whatever happens:
    after any series of calls, clicks and completions the source and the
    three layers are there, so every later [reRenderUsersOnMap] finds the
    map as it needs it. *)
Theorem module_events_installed (es : list ModuleEvent) (w : World) :
  installed (the_map w) = true →
  installed (the_map (module_events es w)) = true.
Proof.
  revert w. induction es as [|e es IH]; intros w Hinst; [done|].
  cbn [module_events foldl]. apply IH. by apply module_event_install_state.
Qed.

Lemma module_events_installed_witness :
  installed (the_map (module_events
    [CallReRender (Some [3]%Z) None; CallAdd None; ImageLoaded None;
     ClusterClicked (click_on (feature_at (4, 52)%Z [("cluster_id", JsNumber 5)]));
     ZoomAnswered None (JsNumber 9); CallReRender None (Some (HCallback 2))]
    world_installed)) = true.
Proof.
  apply (module_events_installed _ world_installed). vm_compute. reflexivity.
Defined.



(** ** The camera moves only to answer a query *)

Lemma calm_refl (w : World) : calm w w.
Proof. split; [done|]. exists []. by rewrite app_nil_r. Qed.

Lemma keeps_calm_ret {A : Type} (a : A) : keeps_calm (mret a).
Proof. by intros w0 w Hw. Qed.

Lemma keeps_calm_bind {A B : Type} (m : M A) (f : A → M B) :
  keeps_calm m → (∀ a, keeps_calm (f a)) → keeps_calm (m ≫= f).
Proof.
  intros Hm Hf w0 w Hw. rewrite bind_run. specialize (Hm w0 w Hw).
  destruct (m w) as [a w1|e w1]; [by apply Hf|done].
Qed.

Lemma calm_logged (w0 w w' : World) (c : Call) :
  calm w0 w →
  is_flyTo c = false → is_query c = false →
  map_queries (the_map w') = map_queries (the_map w) →
  calls w' = calls w ++ [c] →
  calm w0 w'.
Proof.
  intros (Hq & cs & Hcs & Hok) Hf Hqr Hq' Hc'. split; [by rewrite Hq'|].
  exists (cs ++ [c]). split; [by rewrite Hc', Hcs, (assoc_L (++))|].
  apply Forall_app. split; [done|]. by apply Forall_singleton.
Qed.

Lemma keeps_calm_addSource (id : string) (cfg : SourceConfig) :
  keeps_calm (map_addSource id cfg).
Proof.
  intros w0 w Hw. rewrite map_addSource_run. cbn zeta.
  apply (calm_logged w0 w _ (CAddSource id cfg) Hw);
    [done|done|by destruct (has_source _ _)..].
Qed.

Lemma keeps_calm_removeSource (id : string) : keeps_calm (map_removeSource id).
Proof.
  intros w0 w Hw. rewrite map_removeSource_run. cbn zeta.
  apply (calm_logged w0 w _ (CRemoveSource id) Hw);
    [done|done|by destruct (_ && _)..].
Qed.

Lemma keeps_calm_addLayer (l : LayerSpec) : keeps_calm (map_addLayer l).
Proof.
  intros w0 w Hw. rewrite map_addLayer_run. cbn zeta.
  apply (calm_logged w0 w _ (CAddLayer l) Hw);
    [done|done|by destruct (_ && _)..].
Qed.

Lemma keeps_calm_removeLayer (id : string) : keeps_calm (map_removeLayer id).
Proof.
  intros w0 w Hw. rewrite map_removeLayer_run. cbn zeta.
  apply (calm_logged w0 w _ (CRemoveLayer id) Hw);
    [done|done|by destruct (has_layer _ _)..].
Qed.

Lemma keeps_calm_on (type layer : string) (h : Handler) :
  keeps_calm (map_on type layer h).
Proof.
  intros w0 w Hw. rewrite map_on_run.
  by apply (calm_logged w0 w _ (COn type layer h) Hw).
Qed.

Lemma keeps_calm_off (type layer : string) (h : Handler) :
  keeps_calm (map_off type layer h).
Proof.
  intros w0 w Hw. rewrite map_off_run.
  by apply (calm_logged w0 w _ (COff type layer h) Hw).
Qed.

Lemma keeps_calm_addPinImages : keeps_calm addPinImages.
Proof.
  intros w0 w Hw. rewrite addPinImages_run. cbn [final]. unfold pin_load.
  destruct (bool_decide _).
  - destruct Hw as (Hq & cs & Hcs & Hok). split; [done|].
    exists cs. split; [|done]. world_cbn. cbn [fmap list_fmap].
    by rewrite app_nil_r.
  - by apply (calm_logged w0 w _ (CLoadImage (userPin_src w)) Hw).
Qed.

Lemma keeps_calm_addPinImages_loaded (error : option Error) :
  keeps_calm (addPinImages_loaded error).
Proof.
  intros w0 w Hw. destruct error as [e|]; [done|].
  unfold addPinImages_loaded. rewrite bind_run. unfold map_hasImage, gets.
  destruct (bool_decide _); [done|].
  unfold map_addImage, mbind, M_bind, log, modify, gets. world_cbn.
  apply (calm_logged w0 w _ (CAddImage "user-pin" true) Hw);
    [done|done|by destruct (bool_decide _)..].
Qed.

Lemma keeps_calm_addClusteredUsersToMap (cb : option Handler) :
  keeps_calm (addClusteredUsersToMap cb).
Proof.
  unfold addClusteredUsersToMap.
  apply keeps_calm_bind; [by intros w0 w Hw|intros cfg].
  apply keeps_calm_bind; [apply keeps_calm_addSource|intros _].
  apply keeps_calm_bind; [apply keeps_calm_addPinImages|intros _].
  repeat (apply keeps_calm_bind; [apply keeps_calm_addLayer|intros _]).
  unfold addClusteredUsersToMap_handlers.
  apply keeps_calm_bind; [|intros _; apply keeps_calm_on].
  destruct cb; [apply keeps_calm_on|apply keeps_calm_ret].
Qed.

Lemma keeps_calm_reRenderUsersOnMap (ids : option (list Z)) (cb : option Handler) :
  keeps_calm (reRenderUsersOnMap ids cb).
Proof.
  unfold reRenderUsersOnMap.
  apply keeps_calm_bind; [|intros _; apply keeps_calm_bind;
    [|intros _; apply keeps_calm_bind;
      [|intros _; apply keeps_calm_addClusteredUsersToMap]]].
  - destruct cb; [|apply keeps_calm_ret].
    apply keeps_calm_bind; [|intros _]; apply keeps_calm_off.
  - unfold reRenderUsersOnMap_remove.
    repeat (apply keeps_calm_bind; [apply keeps_calm_removeLayer|intros _]).
    apply keeps_calm_removeSource.
  - intros w0 w Hw. by rewrite reRenderUsersOnMap_filter_run.
Qed.

Lemma count_flyTo_app (cs cs' : list Call) :
  count_flyTo (cs ++ cs') = count_flyTo cs + count_flyTo cs'.
Proof. unfold count_flyTo. by rewrite filter_app, length_app. Qed.

Lemma count_query_app (cs cs' : list Call) :
  count_query (cs ++ cs') = count_query cs + count_query cs'.
Proof. unfold count_query. by rewrite filter_app, length_app. Qed.

Lemma count_none (cs : list Call) :
  Forall (λ c, is_flyTo c = false ∧ is_query c = false) cs →
  count_flyTo cs = 0 ∧ count_query cs = 0.
Proof.
  unfold count_flyTo, count_query.
  induction 1 as [|c cs [Hf Hqr] _ IH]; [done|].
  by rewrite !filter_cons_False by congruence.
Qed.

Lemma calm_counts (w0 w : World) :
  calm w0 w →
  ∃ cs, calls w = calls w0 ++ cs ∧ count_flyTo cs = 0 ∧ count_query cs = 0 ∧
        map_queries (the_map w) = map_queries (the_map w0).
Proof.
  intros (Hq & cs & Hcs & Hok). exists cs.
  by destruct (count_none cs Hok).
Qed.

Lemma calm_run_task (m : M unit) (w : World) :
  keeps_calm m → calm w (run_task m w).
Proof.
  intros Hm. specialize (Hm w w (calm_refl w)). unfold run_task.
  by destruct (m w).
Qed.

(** One event: every [flyTo] takes a query out of flight, every query
    issued puts one in. *)
Lemma module_event_camera (e : ModuleEvent) (w : World) :
  ∃ cs, calls (module_event e w) = calls w ++ cs ∧
    count_flyTo cs + length (map_queries (the_map (module_event e w)))
    = length (map_queries (the_map w)) + count_query cs.
Proof.
  assert (∀ w', calm w w' →
    ∃ cs, calls w' = calls w ++ cs ∧
      count_flyTo cs + length (map_queries (the_map w'))
      = length (map_queries (the_map w)) + count_query cs) as Hcalm.
  { intros w' Hw'. destruct (calm_counts _ _ Hw') as (cs & Hcs & Hf & Hqr & Hm).
    exists cs. split; [done|]. rewrite Hf, Hqr, Hm. lia. }
  destruct e as [cb|ids cb|ev|error|error zoom]; cbn [module_event].
  - apply Hcalm, calm_run_task, keeps_calm_addClusteredUsersToMap.
  - apply Hcalm, calm_run_task, keeps_calm_reRenderUsersOnMap.
  - unfold run_task, zoomCluster.
    destruct (first_feature ev) as [c|];
      [|exists []; split; [by rewrite app_nil_r|done]].
    destruct (negb _); [exists []; split; [by rewrite app_nil_r|done]|].
    rewrite bind_run. unfold map_getSource, gets.
    destruct (map_sources (the_map w) !! "clustered-users").
    + exists [CGetClusterExpansionZoom "clustered-users" (get_prop c "cluster_id")].
      split; [done|].
      unfold getClusterExpansionZoom, mbind, M_bind, log, modify_map, modify.
      world_cbn. rewrite length_app. unfold count_flyTo, count_query.
      rewrite filter_cons_False, filter_cons_True by done. cbn [length filter list_filter]. lia.
    + exists []. split; [by rewrite app_nil_r|done].
  - unfold image_loaded. destruct (map_loading (the_map w)) as [|src rest] eqn:Hld;
      [exists []; split; [by rewrite app_nil_r|done]|].
    set (w1 := set_map (set_map_loading rest (the_map w)) w).
    destruct (Hcalm (run_task (addPinImages_loaded error) w1)) as (cs & Hcs & Hn).
    { pose proof (calm_run_task (addPinImages_loaded error) w1
                    (keeps_calm_addPinImages_loaded error)) as Hc.
      by destruct w as [? ? [] ? ?]. }
    by exists cs.
  - unfold expansion_zoom_answered.
    destruct (map_queries (the_map w)) as [|c rest] eqn:Hq;
      [exists []; split; [by rewrite app_nil_r|by rewrite Hq]|].
    exists [CFlyTo (coordinates (geometry c)) zoom]. split; [done|].
    unfold run_task, zoomCluster_answered, map_flyTo, log, modify. world_cbn.
    unfold count_flyTo, count_query.
    rewrite filter_cons_True, filter_cons_False by done.
    cbn [length filter list_filter]. lia.
Qed.

(** X25: the camera moves only to answer a query.  Over any series of
    calls, clicks and completions, the number of [flyTo] calls plus the
    number of queries still in flight is the number of queries that were in
    flight at the start plus the number of queries issued since: the two
    exported functions and the icon callbacks never move the camera, and
    each answer moves it once. *)
Theorem module_events_camera (es : list ModuleEvent) (w : World) :
  let w' := module_events es w in
  count_flyTo (calls_since w w') + length (map_queries (the_map w'))
  = length (map_queries (the_map w)) + count_query (calls_since w w').
Proof.
  cbn zeta.
  assert (∃ cs, calls (module_events es w) = calls w ++ cs ∧
            count_flyTo cs + length (map_queries (the_map (module_events es w)))
            = length (map_queries (the_map w)) + count_query cs)
    as (cs & Hcs & Hn).
  { revert w. induction es as [|e es IH]; intros w.
    - exists []. split; [by rewrite app_nil_r|done].
    - cbn [module_events foldl]. fold (module_events es (module_event e w)).
      destruct (module_event_camera e w) as (cs1 & Hc1 & Hn1).
      destruct (IH (module_event e w)) as (cs2 & Hc2 & Hn2).
      exists (cs1 ++ cs2). split; [by rewrite Hc2, Hc1, (assoc_L (++))|].
      rewrite count_flyTo_app, count_query_app. lia. }
  by rewrite (calls_since_app _ _ _ Hcs).
Qed.
